(** * serta-mulia: the prediction pipeline of [src/server.js]

    A shallow embedding of the server's code and the properties of its
    prediction pipeline: size validation, the confidence score, the
    classification policy, the stored record and the history read path.

    - JavaScript numbers are IEEE-754 binary64 values: [spec_float] with
      precision 53 and maximal exponent 1024, compared and multiplied by the
      Standard Library's executable specification ([SFcompare], [SFmul]).
    - Exceptions and the calls to external capabilities (TensorFlow, the
      model, Firestore) are threaded through a small state-and-error monad
      over a [world] that holds the Firestore collection and a call log.
    - The Firestore collection [predictions] is a finite map from document
      ids to documents. *)

From Stdlib Require Import ZArith List String Ascii Bool Lia.
From Stdlib Require Import SpecFloat.
From stdpp Require Import gmap strings list fin_maps.

Local Open Scope Z_scope.

(* ===================================================================== *)
(** ** JavaScript numbers *)
(* ===================================================================== *)

Module Number.

(** A JavaScript Number: a binary64 float, NaN payloads not distinguished. *)
Definition number : Type := spec_float.

Definition prec : Z := 53.
Definition emax : Z := 1024.

(** The values that really are binary64 numbers (mantissa in canonical
    form, exponent in range). *)
Definition is_binary64 (x : number) : bool := valid_binary prec emax x.

Definition NaN : number := S754_nan.
Definition Infinity : number := S754_infinity false.
Definition NegInfinity : number := S754_infinity true.
Definition pos_zero : number := S754_zero false.
Definition neg_zero : number := S754_zero true.

(** The number denoted by the literal [m * 2^e], rounded to nearest even. *)
Definition of_scaled (m e : Z) : number := binary_normalize prec emax m e false.

(** An integer literal such as [1], [0] or [100]. *)
Definition of_Z (z : Z) : number := of_scaled z 0.

(** [x < y] on numbers: false as soon as one side is NaN. *)
Definition lt (x y : number) : bool := SFltb x y.

(** [x > y] on numbers is [y < x] with the operands evaluated left first. *)
Definition gt (x y : number) : bool := SFltb y x.

(** [x >= y] and [x <= y]. *)
Definition ge (x y : number) : bool := SFleb y x.
Definition le (x y : number) : bool := SFleb x y.

(** [x * y], correctly rounded. *)
Definition mul (x y : number) : number := SFmul prec emax x y.

Definition is_nan (x : number) : bool :=
  match x with S754_nan => true | _ => false end.

Definition is_pos_zero (x : number) : bool :=
  match x with S754_zero false => true | _ => false end.

Definition is_neg_zero (x : number) : bool :=
  match x with S754_zero true => true | _ => false end.

(** The loop of [Math.max] (ECMAScript 21.3.2.24, steps 4 and 5): the
    first NaN met is returned at once; [+0] replaces a [-0] maximum; a
    number strictly greater than the current maximum replaces it. *)
Fixpoint max_loop (highest : number) (coerced : list number) : number :=
  match coerced with
  | [] => highest
  | n :: rest =>
      if is_nan n then NaN
      else
        let highest1 :=
          if is_pos_zero n && is_neg_zero highest then pos_zero else highest in
        let highest2 := if gt n highest1 then n else highest1 in
        max_loop highest2 rest
  end.

(** [Math.max(...args)]: the maximum starts at [-Infinity]. *)
Definition Math_max (args : list number) : number := max_loop NegInfinity args.

(** *** The order behind the comparison

    Every number but NaN has a key; [SFcompare] is the lexicographic
    comparison of the keys. *)
Definition key (x : number) : option (Z * Z * Z) :=
  match x with
  | S754_nan => None
  | S754_infinity true => Some (-2, 0, 0)
  | S754_infinity false => Some (2, 0, 0)
  | S754_zero _ => Some (0, 0, 0)
  | S754_finite false m e => Some (1, e, Zpos m)
  | S754_finite true m e => Some (-1, - e, Zneg m)
  end.

Definition key_lt (a b : Z * Z * Z) : Prop :=
  let '(a1, a2, a3) := a in
  let '(b1, b2, b3) := b in
  a1 < b1 \/ (a1 = b1 /\ (a2 < b2 \/ (a2 = b2 /\ a3 < b3))).

Definition key_le (a b : Z * Z * Z) : Prop := key_lt a b \/ a = b.

End Number.

Import Number.

(* ===================================================================== *)
(** ** The classification policy (server.js, lines 91 to 97) *)
(* ===================================================================== *)

Local Open Scope string_scope.

(** The object [{ confidenceScore, label, suggestion }] that
    [predictClassification] returns. *)
Record Result : Type := mkResult {
  confidenceScore : number;
  label : string;
  suggestion : string
}.

(** Lines 91 to 97: the result starts as Cancer and is overwritten when
    [confidenceScore < 1]. *)
Definition classify (score100 : number) : Result :=
  let result := mkResult score100 "Cancer" "Segera periksa ke dokter!" in
  if lt score100 (of_Z 1) then
    mkResult (confidenceScore result)
             "Non-cancer" "Penyakit kanker tidak terdeteksi."
  else result.

(** Line 89: [Math.max(...score) * 100]. *)
Definition confidence_of (score : list number) : number :=
  mul (Math_max score) (of_Z 100).

(* ===================================================================== *)
(** ** Error objects (server.js, lines 13 to 27) *)
(* ===================================================================== *)

(** The class of an error object, as [instanceof] sees it. *)
Inductive error_class : Type := PlainError | ClientErrorClass | InputErrorClass.

(** A thrown object. [output_statusCode] is set once hapi has wrapped the
    error ([isBoom]); [statusCode] is the field the two classes of the
    server assign. *)
Record Error : Type := mkError {
  class : error_class;
  name : string;
  err_message : string;
  statusCode : option Z;
  output_statusCode : option Z
}.

Definition isBoom (e : Error) : bool :=
  match output_statusCode e with Some _ => true | None => false end.

(** [new Error(message)], as the libraries throw it. *)
Definition new_Error (message : string) : Error :=
  mkError PlainError "Error" message None None.

(** [new ClientError(message, statusCode = 400)]. *)
Definition new_ClientError (message : string) (code : option Z) : Error :=
  mkError ClientErrorClass "ClientError" message (Some (default 400 code)) None.

(** [new InputError(message, statusCode = 400)]: [super(message)] runs the
    constructor above with its own default, then the name and the status
    code are assigned again. *)
Definition new_InputError (message : string) (code : option Z) : Error :=
  let this := new_ClientError message None in
  mkError InputErrorClass "InputError" (err_message this)
          (Some (default 400 code)) (output_statusCode this).

Definition instanceof_InputError (e : Error) : bool :=
  match class e with InputErrorClass => true | _ => false end.

(* ===================================================================== *)
(** ** Stored documents and the world *)
(* ===================================================================== *)

(** The object [data] that [postPredictHandler] builds and stores. *)
Record Data : Type := mkData {
  data_id : string;
  data_result : string;
  data_suggestion : string;
  data_confidenceScore : number;
  data_createdAt : string
}.

(** A document snapshot of an existing document: [doc.id] and [doc.data()]. *)
Record DocumentSnapshot : Type := mkDoc {
  doc_id : string;
  doc_data : Data
}.

(** The calls to the external capabilities, in the order they are made. *)
Inductive call : Type :=
| CallDecodeJpeg
| CallPredict
| CallStoreSet (id : string)
| CallStoreGet (id : string)
| CallStoreList.

(** The Firestore collection [predictions] and the call log. *)
Record world : Type := mkWorld {
  collection : gmap string Data;
  log : list call
}.

(** *** Computations that read and write the world and may throw *)

Definition M (A : Type) : Type := world -> (Error + A) * world.

Definition ret {A} (a : A) : M A := fun w => (inr a, w).

Definition throw {A} (e : Error) : M A := fun w => (inl e, w).

Definition bind {A B} (m : M A) (k : A -> M B) : M B :=
  fun w =>
    match m w with
    | (inl e, w') => (inl e, w')
    | (inr a, w') => k a w'
    end.

(** [try { body } catch (error) { handler }]. *)
Definition try_catch {A} (body : M A) (handler : Error -> M A) : M A :=
  fun w =>
    match body w with
    | (inl e, w') => handler e w'
    | (inr a, w') => (inr a, w')
    end.

(** The outcome of a call that touches no state of ours. *)
Definition lift {A} (r : Error + A) : M A := fun w => (r, w).

(** Record a call in the log. *)
Definition called (c : call) : M unit :=
  fun w => (inr tt, mkWorld (collection w) (log w ++ [c])).

Notation "x <- m ;; k" := (bind m (fun x => k))
  (at level 100, m at next level, right associativity).

(** How often the model's forward pass, and the store's write, were called. *)
Definition is_predict (c : call) : bool :=
  match c with CallPredict => true | _ => false end.

Definition is_store_set (c : call) : bool :=
  match c with CallStoreSet _ => true | _ => false end.

Definition predict_calls (w : world) : nat := length (List.filter is_predict (log w)).

Definition store_writes (w : world) : nat := length (List.filter is_store_set (log w)).

(* ===================================================================== *)
(** ** The external capabilities *)
(* ===================================================================== *)

(** The operations of [@tensorflow/tfjs-node] the server calls. Each may
    throw; none touches the collection. *)
Class TensorFlow : Type := {
  Tensor : Type;
  decodeJpeg : list Byte.byte -> Error + Tensor;
  resizeNearestNeighbor : Tensor -> Z * Z -> Error + Tensor;
  expandDims : Tensor -> Error + Tensor;
  toFloat : Tensor -> Error + Tensor;
  tensor_data : Tensor -> Error + list number
}.

(** The loaded graph model, [request.server.app.model]. *)
Record GraphModel `{TensorFlow} : Type := mkModel {
  predict : Tensor -> Error + Tensor
}.

(** What [crypto.randomUUID()] and [new Date().toISOString()] give to one
    request: sixteen random bytes (read modulo 256) and the time stamp. *)
Record Env : Type := mkEnv {
  random_byte : nat -> Z;
  now_iso : string
}.

Definition hex_digit (n : Z) : ascii :=
  match n mod 16 with
  | 0 => "0" | 1 => "1" | 2 => "2" | 3 => "3" | 4 => "4" | 5 => "5"
  | 6 => "6" | 7 => "7" | 8 => "8" | 9 => "9" | 10 => "a" | 11 => "b"
  | 12 => "c" | 13 => "d" | 14 => "e" | _ => "f"
  end%char.

Definition hex_byte (b : Z) (rest : string) : string :=
  String (hex_digit (b / 16)) (String (hex_digit b) rest).

(** Byte [i] of a version 4 UUID: the version nibble and the variant bits
    are fixed, the rest is random. *)
Definition uuid_byte (random : nat -> Z) (i : nat) : Z :=
  let b := random i mod 256 in
  match i with
  | 6%nat => Z.lor (Z.land b 15) 64
  | 8%nat => Z.lor (Z.land b 63) 128
  | _ => b
  end.

(** [crypto.randomUUID()]: the 36 characters [8-4-4-4-12] in lower-case
    hexadecimal. *)
Definition randomUUID (random : nat -> Z) : string :=
  let b := uuid_byte random in
  let dash := String "-"%char in
  hex_byte (b 0%nat) (hex_byte (b 1%nat) (hex_byte (b 2%nat) (hex_byte (b 3%nat)
  (dash (hex_byte (b 4%nat) (hex_byte (b 5%nat)
  (dash (hex_byte (b 6%nat) (hex_byte (b 7%nat)
  (dash (hex_byte (b 8%nat) (hex_byte (b 9%nat)
  (dash (hex_byte (b 10%nat) (hex_byte (b 11%nat) (hex_byte (b 12%nat)
        (hex_byte (b 13%nat) (hex_byte (b 14%nat) (hex_byte (b 15%nat)
        ""))))))))))))))))))).

(* ===================================================================== *)
(** ** The Firestore service (server.js, lines 37 to 66) *)
(* ===================================================================== *)

(** The read model returned to callers. *)
Record History : Type := mkHistory {
  history_result : string;
  history_createdAt : string;
  history_suggestion : string;
  history_id : string
}.

Record HistoryView : Type := mkView {
  view_id : string;
  history : History
}.

Definition modelData (doc : DocumentSnapshot) : HistoryView :=
  mkView (doc_id doc)
         (mkHistory (data_result (doc_data doc))
                    (data_createdAt (doc_data doc))
                    (data_suggestion (doc_data doc))
                    (doc_id doc)).

(** [predictCollection.doc(id).set(data)]: the document is written under
    [id], replacing what was there. *)
Definition storeData (id : string) (data : Data) : M unit :=
  _ <- called (CallStoreSet id) ;;
  fun w => (inr tt, mkWorld (<[id := data]> (collection w)) (log w)).

(** [predictCollection.doc(id).get()]: [None] stands for a snapshot whose
    [exists] is false. *)
Definition doc_get (id : string) : M (option DocumentSnapshot) :=
  _ <- called (CallStoreGet id) ;;
  fun w => (inr (mkDoc id <$> collection w !! id), w).

(** [predictCollection.get()]: a snapshot of every document, in the order
    of the store. *)
Definition collection_get : M (list DocumentSnapshot) :=
  _ <- called CallStoreList ;;
  fun w => (inr ((fun kv => mkDoc (fst kv) (snd kv)) <$> map_to_list (collection w)), w).

(** What [getData] returns: [null], one view, or an array of views. *)
Inductive getData_result : Type :=
| Null
| One (v : HistoryView)
| All (l : list HistoryView).

(** The truth value of [id] in [if (id)]: [undefined], [null] and the empty
    string are false. *)
Definition truthy_id (id : option string) : bool :=
  match id with
  | Some s => negb (String.eqb s "")
  | None => false
  end.

Definition getData (id : option string) : M getData_result :=
  if truthy_id id then
    doc <- doc_get (default "" id) ;;
    match doc with
    | None => ret Null
    | Some d => ret (One (modelData d))
    end
  else
    snapshot <- collection_get ;;
    ret (All (modelData <$> snapshot)).

(* ===================================================================== *)
(** ** The inference service (server.js, lines 82 to 101) *)
(* ===================================================================== *)

Definition size_message : string := "Ukuran gambar terlalu besar. Maksimum 1MB.".

Definition generic_message : string := "Terjadi kesalahan dalam melakukan prediksi".

Section Pipeline.

Context `{tf : TensorFlow}.

(** The body of the [try] block. *)
Definition predict_body (model : GraphModel) (image : list Byte.byte) : M Result :=
  if Z.of_nat (length image) >? 1024 * 1024 then
    throw (new_InputError size_message None)
  else
    _ <- called CallDecodeJpeg ;;
    decoded <- lift (decodeJpeg image) ;;
    resized <- lift (resizeNearestNeighbor decoded (224, 224)) ;;
    expanded <- lift (expandDims resized) ;;
    tensor <- lift (toFloat expanded) ;;
    _ <- called CallPredict ;;
    prediction <- lift (predict model tensor) ;;
    score <- lift (tensor_data prediction) ;;
    ret (classify (confidence_of score)).

(** Whatever the [try] block throws is replaced by a fresh [InputError]. *)
Definition predictClassification (model : GraphModel) (image : list Byte.byte)
  : M Result :=
  try_catch (predict_body model image)
            (fun error => throw (new_InputError generic_message None)).

(* =================================================================== *)
(** ** The handlers (server.js, lines 104 to 151) *)
(* =================================================================== *)

(** The value of the [data] key of a response body. *)
Inductive payload : Type :=
| PRecord (d : Data)
| PFetched (r : getData_result).

(** A response: the body given to [h.response] and the status code. *)
Record Response : Type := mkResponse {
  status : string;
  message : option string;
  data : option payload;
  code : Z
}.

(** [h.response(body)] answers 200 until [code] is called. *)
Definition h_response (st : string) (msg : option string) (d : option payload)
  : Response := mkResponse st msg d 200.

Definition set_code (r : Response) (c : Z) : Response :=
  mkResponse (status r) (message r) (data r) c.

(** What the handlers read of a request. *)
Record Request : Type := mkRequest {
  payload_image : list Byte.byte;
  params : gmap string string;
  app_model : GraphModel
}.

Definition postPredictHandler (env : Env) (request : Request) : M Response :=
  let image := payload_image request in
  let model := app_model request in
  r <- predictClassification model image ;;
  let id := randomUUID (random_byte env) in
  let createdAt := now_iso env in
  let data :=
    mkData id (label r) (suggestion r) (confidenceScore r) createdAt in
  _ <- storeData id data ;;
  let response :=
    h_response "success"
      (Some (if gt (confidenceScore r) (of_Z 0)
             then "Model is predicted successfully"
             else "Please use the correct picture"))
      (Some (PRecord data)) in
  ret (set_code response 201).

(** The object [data] of lines 112 to 118, for a classification result. *)
Definition record_of (env : Env) (r : Result) : Data :=
  mkData (randomUUID (random_byte env)) (label r) (suggestion r)
         (confidenceScore r) (now_iso env).

(** [!data] is true for [null] only: objects and arrays are truthy. *)
Definition falsy (d : getData_result) : bool :=
  match d with Null => true | _ => false end.

Definition getPredictHandler (env : Env) (request : Request) : M Response :=
  let id := params request !! "id" in
  data <- getData id ;;
  if falsy data then
    let response := h_response "fail" (Some "Prediction not found") None in
    ret (set_code response 404)
  else
    let response := h_response "success" None (Some (PFetched data)) in
    ret (set_code response 200).

(* =================================================================== *)
(** ** The server (server.js, lines 154 to 226) *)
(* =================================================================== *)

(** hapi wraps what a handler throws: the error object becomes a Boom
    error of status 500 unless it is one already. *)
Definition boomify (e : Error) : Error :=
  if isBoom e then e
  else mkError (class e) (name e) (err_message e) (statusCode e) (Some 500).

(** The [onPreResponse] extension: [request.response] is the handler's
    response or the wrapped error. *)
Definition onPreResponse (response : Error + Response) : Error + Response :=
  match response with
  | inl e =>
      if isBoom e && bool_decide (output_statusCode e = Some 413) then
        inr (set_code
               (h_response "fail"
                  (Some "Payload content length greater than maximum allowed: 1000000")
                  None)
               413)
      else if instanceof_InputError e then
        inr (set_code (h_response "fail" (Some (err_message e)) None)
                      (default 500 (statusCode e)))
      else if isBoom e then
        inr (set_code (h_response "fail" (Some (err_message e)) None)
                      (default 500 (output_statusCode e)))
      else inl e
  | inr r => inr r
  end.

(** A route of the table given to [server.route]. *)
Record Route : Type := mkRoute {
  path : string;
  method : string;
  handler : Env -> Request -> M Response
}.

Definition routes : list Route :=
  [ mkRoute "/predict" "POST" postPredictHandler;
    mkRoute "/predict/histories" "GET" getPredictHandler ].

End Pipeline.

(* ===================================================================== *)
(** ** Routing *)
(* ===================================================================== *)

(** The segments of a path, as [path.split("/")] gives them. *)
Fixpoint segments (s : string) : list string :=
  match s with
  | "" => [""]
  | String c rest =>
      match segments rest with
      | [] => []
      | seg :: more =>
          if Ascii.eqb c "/" then "" :: seg :: more else String c seg :: more
      end
  end.

(** The text of a segment up to its closing brace; the mark [?] of an
    optional parameter is dropped. *)
Fixpoint until_brace (s : string) : option string :=
  match s with
  | "" => None
  | String c rest =>
      if String.eqb s "}" || String.eqb s "?}" then Some ""
      else String c <$> until_brace rest
  end.

(** The name a path segment of the form [{name}] or [{name?}] binds. *)
Definition param_name (seg : string) : option string :=
  match seg with
  | String c rest => if Ascii.eqb c "{" then until_brace rest else None
  | "" => None
  end.

(** Match the segments of a route's path against those of a request: a
    parameter segment binds its name to a non-empty request segment, any
    other segment has to be equal. *)
Fixpoint match_segments (pattern actual : list string) (ps : gmap string string)
  : option (gmap string string) :=
  match pattern, actual with
  | [], [] => Some ps
  | p :: pattern', a :: actual' =>
      match param_name p with
      | Some n =>
          if String.eqb a "" then None
          else match_segments pattern' actual' (<[n := a]> ps)
      | None =>
          if String.eqb p a then match_segments pattern' actual' ps else None
      end
  | _, _ => None
  end.

(** An incoming request: method, path without the query, the [image] field
    of its multipart payload, and the number of payload bytes around it. *)
Record HttpRequest : Type := mkHttp {
  req_method : string;
  req_path : string;
  req_image : list Byte.byte;
  req_framing : nat
}.

(** The length of the payload: the image and its multipart framing. *)
Definition content_length (req : HttpRequest) : Z :=
  Z.of_nat (length (req_image req)) + Z.of_nat (req_framing req).

(** [routes.payload.maxBytes] of the server's configuration (line 163). *)
Definition maxBytes : Z := 1 * 1024 * 1024.

Section Server.

Context `{tf : TensorFlow}.

(** The route serving a request, with [request.params]. *)
Fixpoint find_route (table : list Route) (req : HttpRequest)
  : option (Route * gmap string string) :=
  match table with
  | [] => None
  | r :: table' =>
      if String.eqb (method r) (req_method req) then
        match match_segments (segments (path r)) (segments (req_path req)) ∅ with
        | Some ps => Some (r, ps)
        | None => find_route table' req
        end
      else find_route table' req
  end.

(** hapi's answer to a request no route serves. *)
Definition notFound : Error := mkError PlainError "Error" "Not Found" None (Some 404).

(** hapi's answer to a payload longer than [maxBytes]. *)
Definition payloadTooLarge : Error :=
  mkError PlainError "Error"
          "Payload content length greater than maximum allowed: 1048576"
          None (Some 413).

(** From the outcome of the handler to the response sent: what was thrown
    is wrapped, then [onPreResponse] runs. *)
Definition settle (outcome : Error + Response) : Error + Response :=
  onPreResponse match outcome with
                | inl e => inl (boomify e)
                | inr response => inr response
                end.

(** One request through the server: routing, the limit on the payload of
    a request that has one, the handler, then [onPreResponse]. *)
Definition serve (model : GraphModel) (env : Env) (req : HttpRequest)
  : world -> (Error + Response) * world :=
  fun w =>
    match find_route routes req with
    | None => (settle (inl notFound), w)
    | Some (r, ps) =>
        if negb (String.eqb (method r) "GET") && (content_length req >? maxBytes)
        then (settle (inl payloadTooLarge), w)
        else
          match handler r env (mkRequest (req_image req) ps model) w with
          | (outcome, w') => (settle outcome, w')
          end
    end.

End Server.

(** [haystack.includes(needle)]. *)
Fixpoint includes (needle haystack : string) : bool :=
  String.prefix needle haystack
  || match haystack with
     | "" => false
     | String _ rest => includes needle rest
     end.


(* ===================================================================== *)
(** ** A test double *)
(* ===================================================================== *)

(** A TensorFlow whose tensors are arrays of numbers and whose operations
    never fail: decoding reads each byte as a number, the other operations
    leave the tensor as it is. *)
Definition probe_tf : TensorFlow := {|
  Tensor := list number;
  decodeJpeg := fun image => inr ((fun b => of_Z (Z.of_N (Byte.to_N b))) <$> image);
  resizeNearestNeighbor := fun t _ => inr t;
  expandDims := fun t => inr t;
  toFloat := fun t => inr t;
  tensor_data := fun t => inr t
|}.

(** A model that answers [output] whatever the tensor. *)
Definition probe_model (output : list number) : @GraphModel probe_tf :=
  @mkModel probe_tf (fun _ => inr output).

Definition probe_env : Env :=
  mkEnv (fun i => 17 * Z.of_nat i + 3) "2024-05-01T10:00:00.000Z".

Definition empty_world : world := mkWorld ∅ [].

(** Two mebibytes of zero bytes. *)
Abbreviation two_mebibytes := (repeat Byte.x00 (Z.to_nat 2097152)).

(** A four-byte stand-in for a small image. *)
Definition small_image : list Byte.byte := [Byte.xff; Byte.xd8; Byte.xff; Byte.xd9].

(** A submission of the small image to a model that answers [output]. *)
Definition probe_request (output : list number) : @Request probe_tf :=
  @mkRequest probe_tf small_image ∅ (probe_model output).

(** A request for the history of [id]. *)
Definition lookup_request (id : string) : @Request probe_tf :=
  @mkRequest probe_tf [] {[ "id" := id ]} (probe_model []).

(** The model output 0.005, as the binary64 number nearest to it. *)
Definition half_percent : number := of_scaled 5764607523034235 (-60).

(** The record and the world after the small image was submitted to a model
    that answers 0.005. *)
Definition probe_record : Data :=
  record_of probe_env (classify (confidence_of [half_percent])).

Definition probe_stored : world :=
  mkWorld {[ data_id probe_record := probe_record ]}
          [CallDecodeJpeg; CallPredict; CallStoreSet (data_id probe_record)].


(** [m] is a maximum element of [score]: it occurs in it and no element
    exceeds it. *)
Definition is_maximum (m : number) (score : list number) : Prop :=
  In m score /\ Forall (fun x => le x m = true) score.

(* ===================================================================== *)
(** ** Derived notions *)
(* ===================================================================== *)

Section Derived.

Context `{tf : TensorFlow}.

(** The four chained calls of line 86: the first one that throws ends the
    chain. *)
Definition preprocess (image : list Byte.byte) : Error + Tensor :=
  match decodeJpeg image with
  | inl e => inl e
  | inr decoded =>
      match resizeNearestNeighbor decoded (224, 224) with
      | inl e => inl e
      | inr resized =>
          match expandDims resized with
          | inl e => inl e
          | inr expanded => toFloat expanded
          end
      end
  end.


End Derived.

(** How often the decoding was called. *)
Definition is_decode (c : call) : bool :=
  match c with CallDecodeJpeg => true | _ => false end.

Definition decode_calls (w : world) : nat := length (List.filter is_decode (log w)).

(** A record whose label and suggestion are the pair that the policy gives
    to its confidence score. *)
Definition consistent (d : Data) : bool :=
  if lt (data_confidenceScore d) (of_Z 1) then
    String.eqb (data_result d) "Non-cancer"
    && String.eqb (data_suggestion d) "Penyakit kanker tidak terdeteksi."
  else
    String.eqb (data_result d) "Cancer"
    && String.eqb (data_suggestion d) "Segera periksa ke dokter!".

(** A collection in which every document is stored under its own [id] and
    is consistent. *)
Definition well_formed (c : gmap string Data) : Prop :=
  map_Forall (fun id d => data_id d = id /\ consistent d = true) c.



(** *** More test doubles *)

(** A TensorFlow that cannot decode anything. *)
Definition broken_tf : TensorFlow := {|
  Tensor := list number;
  decodeJpeg := fun _ => inl (new_Error "Expected image (JPEG, PNG, or GIF), but got unsupported image type");
  resizeNearestNeighbor := fun t _ => inr t;
  expandDims := fun t => inr t;
  toFloat := fun t => inr t;
  tensor_data := fun t => inr t
|}.

Definition broken_model : @GraphModel broken_tf :=
  @mkModel broken_tf (fun _ => inr []).

(** A model whose forward pass throws. *)
Definition failing_model : @GraphModel probe_tf :=
  @mkModel probe_tf (fun _ => inl (new_Error "The shape of dict does not match the shape of the model input")).

(** A second draw of random bytes, a little later. *)
Definition probe_env2 : Env :=
  mkEnv (fun i => 29 * Z.of_nat i + 5) "2024-05-01T10:05:00.000Z".

(** The record of a second submission, and the world after both. *)
Definition probe_record2 : Data :=
  record_of probe_env2 (classify (confidence_of [half_percent])).

Definition probe_stored2 : world :=
  mkWorld (<[ data_id probe_record2 := probe_record2 ]> (collection probe_stored))
          (log probe_stored
           ++ [CallDecodeJpeg; CallPredict; CallStoreSet (data_id probe_record2)]).

(** Exactly one mebibyte of zero bytes. *)
Abbreviation one_mebibyte := (repeat Byte.x00 (Z.to_nat 1048576)).

(* ===================================================================== *)
(** ** Tactics *)
(* ===================================================================== *)

(** Unpack every key in the context into its three components. *)
Ltac key_triples :=
  repeat match goal with
         | a : (Z * Z * Z)%type |- _ => destruct a as [[? ?] ?]
         end.

Ltac key_facts :=
  repeat match goal with
         | H : exists _, _ |- _ => destruct H as [? H]
         | H : _ /\ _ |- _ => destruct H as [? ?]
         | H1 : key ?x = Some ?a, H2 : key ?x = Some ?b |- _ =>
             assert (a = b) by congruence; subst b; clear H2
         | H1 : key ?x = Some _, H2 : key ?x = None |- _ => congruence
         end.

(** Run the monad's plumbing in the goal. *)
Ltac run := unfold bind, lift, called, throw, ret, try_catch; cbn [fst snd collection log].

(* ===================================================================== *)
(** * Properties *)
(* ===================================================================== *)

(** ** The model on concrete inputs *)

Example literals_are_binary64 :
  is_binary64 (of_Z 0) = true /\ is_binary64 (of_Z 1) = true
  /\ is_binary64 (of_Z 100) = true /\ is_binary64 half_percent = true.
Proof. repeat split. Qed.

Example comparisons_with_nan :
  lt NaN (of_Z 1) = false /\ gt NaN (of_Z 0) = false /\ ge NaN (of_Z 1) = false.
Proof. repeat split. Qed.

Example max_of_samples :
  Math_max [of_Z 0; half_percent; of_scaled 1 (-8)] = half_percent
  /\ Math_max [neg_zero; pos_zero] = pos_zero
  /\ Math_max [of_Z 1; NaN; of_Z 100] = NaN
  /\ Math_max [] = NegInfinity.
Proof. repeat split. Qed.

(** 0.005 times 100 is 0.5, and 0.5 is classified Non-cancer. *)
Example half_percent_scenario :
  confidence_of [half_percent] = of_scaled 1 (-1)
  /\ classify (confidence_of [half_percent])
     = mkResult (of_scaled 1 (-1)) "Non-cancer" "Penyakit kanker tidak terdeteksi.".
Proof. split; vm_compute; reflexivity. Qed.

Example randomUUID_sample :
  randomUUID (random_byte probe_env) = "03142536-4758-497a-8b9c-adbecfe0f102".
Proof. vm_compute. reflexivity. Qed.

Example segments_samples :
  segments "/predict/histories" = [""; "predict"; "histories"]
  /\ param_name "{id}" = Some "id" /\ param_name "{id?}" = Some "id"
  /\ param_name "histories" = None.
Proof. repeat split. Qed.

Example match_segments_binds :
  match_segments (segments "/predict/histories/{id}")
                 (segments "/predict/histories/abc") ∅
  = Some {[ "id" := "abc" ]}.
Proof. vm_compute. reflexivity. Qed.

(** The scenario of a small image whose model output is 0.005: the record
    is stored as Non-cancer and the response has status 201. *)
Example small_image_scenario :
  @postPredictHandler probe_tf probe_env (probe_request [half_percent]) empty_world
  = (inr (mkResponse "success" (Some "Model is predicted successfully")
            (Some (PRecord probe_record)) 201),
     probe_stored)
  /\ data_result probe_record = "Non-cancer"
  /\ data_suggestion probe_record = "Penyakit kanker tidak terdeteksi.".
Proof. repeat split; vm_compute; reflexivity. Qed.

(** ** The order of numbers *)

Lemma SFcompare_key (x y : number) :
  match SFcompare x y with
  | Some Lt => exists a b, key x = Some a /\ key y = Some b /\ key_lt a b
  | Some Eq => exists a, key x = Some a /\ key y = Some a
  | Some Gt => exists a b, key x = Some a /\ key y = Some b /\ key_lt b a
  | None => key x = None \/ key y = None
  end.
Proof.
  destruct x as [sx|sx| |sx mx ex], y as [sy|sy| |sy my ey];
    try destruct sx; try destruct sy; cbn;
    try (left; reflexivity); try (right; reflexivity);
    try (eexists; split; [reflexivity|reflexivity]);
    try (eexists; eexists; split; [reflexivity|split; [reflexivity|cbn; lia]]).
  - change (Pos.compare_cont Eq mx my) with (Pos.compare mx my).
    destruct (Z.compare_spec ex ey) as [He|He|He];
      [destruct (Pos.compare_spec mx my) as [Hm|Hm|Hm]| |]; subst; cbn;
      try (eexists; split; [reflexivity|reflexivity]);
      (eexists; eexists; split; [reflexivity|split; [reflexivity|cbn; lia]]).
  - change (Pos.compare_cont Eq mx my) with (Pos.compare mx my).
    destruct (Z.compare_spec ex ey) as [He|He|He];
      [destruct (Pos.compare_spec mx my) as [Hm|Hm|Hm]| |]; subst; cbn;
      try (eexists; split; [reflexivity|reflexivity]);
      (eexists; eexists; split; [reflexivity|split; [reflexivity|cbn; lia]]).
Qed.

Lemma key_lt_irrefl (a : Z * Z * Z) : ~ key_lt a a.
Proof. key_triples. unfold key_lt. lia. Qed.

Lemma key_lt_asym (a b : Z * Z * Z) : key_lt a b -> ~ key_lt b a.
Proof. key_triples. unfold key_lt. lia. Qed.

Lemma key_le_trans (a b c : Z * Z * Z) : key_le a b -> key_le b c -> key_le a c.
Proof.
  key_triples. unfold key_le, key_lt.
  intros [H1|H1] [H2|H2]; try inversion H1; try inversion H2; subst;
    first [left; lia | right; reflexivity].
Qed.

Lemma key_le_total (a b : Z * Z * Z) : key_lt a b \/ key_le b a.
Proof.
  key_triples. unfold key_le, key_lt.
  destruct (Z.compare_spec z z2), (Z.compare_spec z0 z3), (Z.compare_spec z1 z4);
    subst; try (left; lia); try (right; left; lia); right; right; reflexivity.
Qed.

Lemma lt_spec (x y : number) :
  lt x y = true <-> exists a b, key x = Some a /\ key y = Some b /\ key_lt a b.
Proof.
  unfold lt, SFltb. pose proof (SFcompare_key x y) as H.
  destruct (SFcompare x y) as [[| |]|]; split; intros G;
    try discriminate; try reflexivity; try exact H; exfalso; key_facts.
  - eapply key_lt_irrefl; eassumption.
  - eapply key_lt_asym; eassumption.
  - destruct H; key_facts.
Qed.

Lemma le_spec (x y : number) :
  le x y = true <-> exists a b, key x = Some a /\ key y = Some b /\ key_le a b.
Proof.
  unfold le, SFleb. pose proof (SFcompare_key x y) as H.
  destruct (SFcompare x y) as [[| |]|]; split; intros G;
    try discriminate; try reflexivity.
  - destruct H as (a & Hx & Hy). exists a, a. repeat split; try assumption.
    right; reflexivity.
  - destruct H as (a & b & Hx & Hy & Hlt). exists a, b. repeat split; try assumption.
    left; assumption.
  - exfalso. destruct G as (a & b & Hx & Hy & [Hlt| ->]);
      destruct H as (a' & b' & Hx' & Hy' & Hgt); key_facts.
    + eapply key_lt_asym; eassumption.
    + eapply key_lt_irrefl; eassumption.
  - exfalso. destruct G as (a & b & Hx & Hy & _). destruct H; key_facts.
Qed.

Lemma key_is_nan (x : number) : is_nan x = false <-> exists a, key x = Some a.
Proof.
  destruct x as [s|s| |s m e]; try destruct s; cbn; split; intros H;
    try reflexivity; try discriminate; try (eexists; reflexivity).
  destruct H; discriminate.
Qed.

Lemma le_refl (x : number) : is_nan x = false -> le x x = true.
Proof.
  intros H. apply key_is_nan in H as [a Ha]. apply le_spec.
  exists a, a. repeat split; try assumption. right; reflexivity.
Qed.

Lemma le_trans (x y z : number) : le x y = true -> le y z = true -> le x z = true.
Proof.
  rewrite !le_spec. intros H1 H2. key_facts.
  eexists; eexists; repeat split; try eassumption.
  eapply key_le_trans; eassumption.
Qed.

(** Between two numbers that are not NaN, [x > y] fails only if [x <= y]. *)
Lemma not_gt_le (x y : number) :
  is_nan x = false -> is_nan y = false -> gt x y = false -> le x y = true.
Proof.
  intros Hx Hy Hgt. apply key_is_nan in Hx as [a Ha], Hy as [b Hb].
  apply le_spec. exists a, b. repeat split; try assumption.
  destruct (key_le_total b a) as [Hlt|Hle]; [|assumption].
  exfalso. assert (lt y x = true) as Hc.
  { apply lt_spec. exists b, a. auto. }
  unfold gt in Hgt. unfold lt in Hc. congruence.
Qed.

Lemma gt_le (x y : number) : gt x y = true -> le y x = true.
Proof.
  unfold gt. fold (lt y x). rewrite lt_spec, le_spec. intros H. key_facts.
  eexists; eexists; repeat split; try eassumption. left; assumption.
Qed.

(** [x >= y] excludes [x < y]. *)
Lemma ge_not_lt (x y : number) : ge x y = true -> lt x y = false.
Proof.
  unfold ge. fold (le y x). rewrite le_spec. intros H.
  destruct (lt x y) eqn:Hlt; [|reflexivity]. exfalso.
  apply lt_spec in Hlt. destruct Hlt as (a' & b' & Hx' & Hy' & Hlt).
  destruct H as (a & b & Hy & Hx & [Hle| ->]); key_facts.
  - eapply key_lt_asym; eassumption.
  - eapply key_lt_irrefl; eassumption.
Qed.

(** ** [Math.max] *)

Lemma max_loop_nan (l : list number) :
  forall h, existsb is_nan l = true -> max_loop h l = NaN.
Proof.
  induction l as [|n rest IH]; intros h H; cbn in *; [discriminate|].
  destruct (is_nan n); [reflexivity|]. cbn in H. apply IH, H.
Qed.

(** One step of the loop from a maximum [h] and a number [n], neither NaN. *)
Lemma max_step (h n : number) :
  is_nan h = false -> is_nan n = false ->
  let h1 := if is_pos_zero n && is_neg_zero h then pos_zero else h in
  let h2 := if gt n h1 then n else h1 in
  is_nan h2 = false /\ (h2 = h \/ h2 = n) /\ le h h2 = true /\ le n h2 = true.
Proof.
  intros Hh Hn h1 h2.
  assert (is_nan h1 = false /\ (h1 = h \/ h1 = n) /\ le h h1 = true) as (N1 & E1 & L1).
  { subst h1. destruct (is_pos_zero n && is_neg_zero h) eqn:Hz.
    - apply andb_true_iff in Hz as [Hp Hm].
      destruct n as [[|]| | |]; try discriminate.
      destruct h as [[|]| | |]; try discriminate.
      repeat split; auto.
    - repeat split; auto. apply le_refl, Hh. }
  subst h2. destruct (gt n h1) eqn:Hgt.
  - repeat split; auto.
    + eapply le_trans; [exact L1|]. apply gt_le, Hgt.
    + apply le_refl, Hn.
  - repeat split; auto. apply not_gt_le; assumption.
Qed.

Lemma max_loop_spec (l : list number) :
  forall h, is_nan h = false -> existsb is_nan l = false ->
  is_nan (max_loop h l) = false
  /\ (max_loop h l = h \/ In (max_loop h l) l)
  /\ le h (max_loop h l) = true
  /\ Forall (fun x => le x (max_loop h l) = true) l.
Proof.
  induction l as [|n rest IH]; intros h Hh Hl.
  - cbn. repeat split; auto. apply le_refl, Hh.
  - cbn in Hl. apply orb_false_iff in Hl as [Hn Hrest].
    cbn [max_loop]. rewrite Hn.
    destruct (max_step h n Hh Hn) as (N2 & E2 & L2 & Ln).
    cbv zeta in *.
    set (h2 := if gt n (if is_pos_zero n && is_neg_zero h then pos_zero else h)
               then n
               else if is_pos_zero n && is_neg_zero h then pos_zero else h) in *.
    destruct (IH h2 N2 Hrest) as (Nr & Er & Lr & Fr).
    repeat split.
    + exact Nr.
    + destruct Er as [Er|Er]; [|right; right; exact Er].
      rewrite Er. destruct E2 as [E2|E2]; [left; exact E2|right; left; symmetry; exact E2].
    + eapply le_trans; eassumption.
    + constructor; [eapply le_trans; eassumption|exact Fr].
Qed.

(** [Math.max] of an array: [-Infinity] when it is empty, NaN when it holds
    a NaN, and else a maximum element of the array. *)
Lemma Math_max_spec (score : list number) :
  match score with
  | [] => Math_max score = NegInfinity
  | _ :: _ =>
      if existsb is_nan score then Math_max score = NaN
      else is_maximum (Math_max score) score
  end.
Proof.
  destruct score as [|x rest]; [reflexivity|].
  destruct (existsb is_nan (x :: rest)) eqn:Hn.
  - apply max_loop_nan, Hn.
  - destruct (max_loop_spec (x :: rest) NegInfinity eq_refl Hn) as (Nr & Er & Lr & Fr).
    split; [|exact Fr]. destruct Er as [Er|Er]; [|exact Er].
    unfold Math_max. rewrite Er.
    inversion Fr as [|? ? Hx _]; subst. fold (Math_max (x :: rest)) in Hx.
    unfold Math_max in Hx. rewrite Er in Hx.
    destruct x as [s|[|]| |[|] m e]; try discriminate. left; reflexivity.
Qed.

(** ** The inference service *)

Section PipelineFacts.

Context `{tf : TensorFlow}.

Lemma predict_body_oversize (model : GraphModel) (image : list Byte.byte) (w : world) :
  1024 * 1024 < Z.of_nat (length image) ->
  predict_body model image w = (inl (new_InputError size_message None), w).
Proof.
  intros H. unfold predict_body.
  replace (Z.of_nat (length image) >? 1024 * 1024) with true
    by (symmetry; apply Z.gtb_lt; exact H).
  reflexivity.
Qed.

(** The outcomes of the [try] block: an error after no call, after the
    decoding, or after the forward pass; or a result after both. *)
Lemma predict_body_cases (model : GraphModel) (image : list Byte.byte) (w : world) :
  (exists e calls,
      predict_body model image w = (inl e, mkWorld (collection w) (log w ++ calls))
      /\ (calls = [] \/ calls = [CallDecodeJpeg] \/ calls = [CallDecodeJpeg; CallPredict]))
  \/ (exists decoded resized expanded tensor prediction score,
         Z.of_nat (length image) <= 1024 * 1024
         /\ decodeJpeg image = inr decoded
         /\ resizeNearestNeighbor decoded (224, 224) = inr resized
         /\ expandDims resized = inr expanded
         /\ toFloat expanded = inr tensor
         /\ predict model tensor = inr prediction
         /\ tensor_data prediction = inr score
         /\ predict_body model image w
            = (inr (classify (confidence_of score)),
               mkWorld (collection w) (log w ++ [CallDecodeJpeg; CallPredict]))).
Proof.
  unfold predict_body.
  destruct (Z.of_nat (length image) >? 1024 * 1024) eqn:Hsize.
  { left. exists (new_InputError size_message None), []. rewrite app_nil_r.
    destruct w; split; [reflexivity|auto]. }
  assert (Z.of_nat (length image) <= 1024 * 1024) as Hle.
  { destruct (Z.gtb_spec (Z.of_nat (length image)) (1024 * 1024)); [discriminate|lia]. }
  run.
  destruct (decodeJpeg image) as [e|decoded] eqn:H1;
    [left; exists e, [CallDecodeJpeg]; auto|].
  destruct (resizeNearestNeighbor decoded (224, 224)) as [e|resized] eqn:H2;
    [left; exists e, [CallDecodeJpeg]; auto|].
  destruct (expandDims resized) as [e|expanded] eqn:H3;
    [left; exists e, [CallDecodeJpeg]; auto|].
  destruct (toFloat expanded) as [e|tensor] eqn:H4;
    [left; exists e, [CallDecodeJpeg]; auto|].
  rewrite <- app_assoc. cbn [app].
  destruct (predict model tensor) as [e|prediction] eqn:H5;
    [left; exists e, [CallDecodeJpeg; CallPredict]; auto|].
  destruct (tensor_data prediction) as [e|score] eqn:H6;
    [left; exists e, [CallDecodeJpeg; CallPredict]; auto|].
  right. exists decoded, resized, expanded, tensor, prediction, score.
  repeat split; assumption || reflexivity.
Qed.

(** A failure of [predictClassification] is the generic [InputError], and
    the collection is as it was. *)
Lemma predictClassification_cases (model : GraphModel) (image : list Byte.byte) (w : world) :
  (exists calls,
      predictClassification model image w
      = (inl (new_InputError generic_message None),
         mkWorld (collection w) (log w ++ calls))
      /\ (calls = [] \/ calls = [CallDecodeJpeg] \/ calls = [CallDecodeJpeg; CallPredict]))
  \/ (exists decoded resized expanded tensor prediction score,
         Z.of_nat (length image) <= 1024 * 1024
         /\ decodeJpeg image = inr decoded
         /\ resizeNearestNeighbor decoded (224, 224) = inr resized
         /\ expandDims resized = inr expanded
         /\ toFloat expanded = inr tensor
         /\ predict model tensor = inr prediction
         /\ tensor_data prediction = inr score
         /\ predictClassification model image w
            = (inr (classify (confidence_of score)),
               mkWorld (collection w) (log w ++ [CallDecodeJpeg; CallPredict]))).
Proof.
  unfold predictClassification, try_catch.
  destruct (predict_body_cases model image w) as
    [(e & calls & Hb & Hc)|(d & r & x & t & p & s & Hs & H1 & H2 & H3 & H4 & H5 & H6 & Hb)];
    rewrite Hb.
  - left. exists calls. split; [reflexivity|exact Hc].
  - right. exists d, r, x, t, p, s. repeat split; assumption.
Qed.

Lemma predictClassification_oversize (model : GraphModel) (image : list Byte.byte) (w : world) :
  1024 * 1024 < Z.of_nat (length image) ->
  predictClassification model image w = (inl (new_InputError generic_message None), w).
Proof.
  intros H. unfold predictClassification, try_catch.
  rewrite (predict_body_oversize model image w H). reflexivity.
Qed.

Lemma postPredictHandler_oversize (env : Env) (model : GraphModel)
    (image : list Byte.byte) (ps : gmap string string) (w : world) :
  1024 * 1024 < Z.of_nat (length image) ->
  postPredictHandler env (mkRequest image ps model) w
  = (inl (new_InputError generic_message None), w).
Proof.
  intros H. unfold postPredictHandler, bind. cbn [payload_image app_model].
  rewrite (predictClassification_oversize model image w H). reflexivity.
Qed.

Lemma find_route_post (image : list Byte.byte) (framing : nat) :
  find_route routes (mkHttp "POST" "/predict" image framing)
  = Some (mkRoute "/predict" "POST" postPredictHandler, ∅).
Proof. reflexivity. Qed.


Lemma store_writes_app (c : gmap string Data) (l calls : list call) :
  store_writes (mkWorld c (l ++ calls))
  = (store_writes (mkWorld c l) + length (List.filter is_store_set calls))%nat.
Proof. unfold store_writes. cbn [log]. rewrite List.filter_app, List.length_app. reflexivity. Qed.

Lemma predict_calls_app (c : gmap string Data) (l calls : list call) :
  predict_calls (mkWorld c (l ++ calls))
  = (predict_calls (mkWorld c l) + length (List.filter is_predict calls))%nat.
Proof. unfold predict_calls. cbn [log]. rewrite List.filter_app, List.length_app. reflexivity. Qed.

End PipelineFacts.

(* ===================================================================== *)
(** * The claims *)
(* ===================================================================== *)

(** ** Classification policy *)

(** C1. For every confidence score, the result is labelled Non-cancer with
    the non-cancer suggestion exactly when [confidenceScore < 1]; it is
    labelled Cancer with the see-a-doctor suggestion whenever
    [confidenceScore >= 1]; and the score 1.0 itself is classified Cancer. *)
Theorem classify_threshold (score100 : number) :
  ((label (classify score100) = "Non-cancer"
    /\ suggestion (classify score100) = "Penyakit kanker tidak terdeteksi.")
   <-> lt score100 (of_Z 1) = true)
  /\ (ge score100 (of_Z 1) = true ->
      label (classify score100) = "Cancer"
      /\ suggestion (classify score100) = "Segera periksa ke dokter!")
  /\ classify (of_Z 1) = mkResult (of_Z 1) "Cancer" "Segera periksa ke dokter!".
Proof.
  split; [|split].
  - unfold classify. destruct (lt score100 (of_Z 1)); cbn; split; intros H;
      try reflexivity; try (split; reflexivity); try discriminate.
    destruct H as [H _]. discriminate.
  - intros H. apply ge_not_lt in H. unfold classify. rewrite H. cbn. split; reflexivity.
  - reflexivity.
Qed.

(** The score 100 is at least 1 and is classified Cancer. *)
Lemma classify_threshold_witness :
  label (classify (of_Z 100)) = "Cancer"
  /\ suggestion (classify (of_Z 100)) = "Segera periksa ke dokter!".
Proof.
  apply (proj1 (proj2 (classify_threshold (of_Z 100)))). vm_compute. reflexivity.
Defined.

(** C10. The branch is decided by the comparison [confidenceScore < 1]
    alone, on every number: where the comparison is not true the label is
    Cancer, NaN included; every value below 1 is labelled Non-cancer, among
    them 0, every negative number, [-Infinity], and the score of an empty
    output array. *)
Theorem classify_total (score100 : number) :
  classify score100
  = (if lt score100 (of_Z 1)
     then mkResult score100 "Non-cancer" "Penyakit kanker tidak terdeteksi."
     else mkResult score100 "Cancer" "Segera periksa ke dokter!")
  /\ lt NaN (of_Z 1) = false
  /\ label (classify NaN) = "Cancer"
  /\ label (classify (of_Z 0)) = "Non-cancer"
  /\ label (classify neg_zero) = "Non-cancer"
  /\ (forall m e, label (classify (S754_finite true m e)) = "Non-cancer")
  /\ label (classify NegInfinity) = "Non-cancer"
  /\ confidence_of [] = NegInfinity
  /\ label (classify (confidence_of [])) = "Non-cancer".
Proof.
  split; [|repeat split].
  unfold classify. destruct (lt score100 (of_Z 1)); reflexivity.
Qed.

(** ** Confidence score *)

(** C7. Whenever the inference stage returns a result, its confidence score
    is [Math.max] of the model's output array multiplied by 100, and
    [Math.max] of a non-empty array without NaN is a maximum element of it
    (it is NaN when the array holds one, and [-Infinity] when it is empty). *)
Theorem confidence_is_max_times_100 `{tf : TensorFlow}
    (model : GraphModel) (image : list Byte.byte) (w w' : world) (r : Result) :
  predictClassification model image w = (inr r, w') ->
  exists tensor prediction score,
    predict model tensor = inr prediction
    /\ tensor_data prediction = inr score
    /\ confidenceScore r = mul (Math_max score) (of_Z 100)
    /\ match score with
       | [] => Math_max score = NegInfinity
       | _ :: _ =>
           if existsb is_nan score then Math_max score = NaN
           else is_maximum (Math_max score) score
       end.
Proof.
  intros H.
  destruct (predictClassification_cases model image w) as
    [(calls & Hf & _)|(d & rs & x & t & p & s & _ & _ & _ & _ & _ & H5 & H6 & Hs)].
  - rewrite Hf in H. discriminate.
  - rewrite Hs in H. inversion H; subst. exists t, p, s.
    split; [exact H5|]. split; [exact H6|]. split.
    + unfold classify. destruct (lt _ _); reflexivity.
    + apply Math_max_spec.
Qed.

(** A model that answers 1/256 and 3/8: the score is 37.5. *)
Lemma confidence_is_max_times_100_witness :
  exists tensor prediction score,
    @predict probe_tf (probe_model [of_scaled 1 (-8); of_scaled 3 (-3)]) tensor
    = inr prediction
    /\ @tensor_data probe_tf prediction = inr score
    /\ confidenceScore (mkResult (of_scaled 75 (-1)) "Cancer" "Segera periksa ke dokter!")
       = mul (Math_max score) (of_Z 100)
    /\ match score with
       | [] => Math_max score = NegInfinity
       | _ :: _ =>
           if existsb is_nan score then Math_max score = NaN
           else is_maximum (Math_max score) score
       end.
Proof.
  apply (@confidence_is_max_times_100 probe_tf
           (probe_model [of_scaled 1 (-8); of_scaled 3 (-3)]) small_image
           empty_world (mkWorld ∅ [CallDecodeJpeg; CallPredict])).
  vm_compute. reflexivity.
Defined.

(** ** Size validation *)

(** C2. For every image longer than 1,048,576 bytes, [predictClassification]
    fails with an [InputError] whose status code is 400, and so does the
    handler; the world is left as it was, so neither the decoding nor the
    model's forward pass has been called. *)
Theorem oversized_image_rejected `{tf : TensorFlow}
    (env : Env) (model : GraphModel) (image : list Byte.byte)
    (ps : gmap string string) (w : world) :
  1024 * 1024 < Z.of_nat (length image) ->
  exists e w',
    predictClassification model image w = (inl e, w')
    /\ postPredictHandler env (mkRequest image ps model) w = (inl e, w')
    /\ instanceof_InputError e = true
    /\ name e = "InputError"
    /\ statusCode e = Some 400
    /\ w' = w
    /\ predict_calls w' = predict_calls w.
Proof.
  intros H. exists (new_InputError generic_message None), w.
  repeat split.
  - apply predictClassification_oversize, H.
  - apply postPredictHandler_oversize, H.
Qed.

Lemma zero_bytes_oversized (n : Z) :
  1024 * 1024 < n -> 1024 * 1024 < Z.of_nat (length (repeat Byte.x00 (Z.to_nat n))).
Proof. intros H. rewrite repeat_length, Z2Nat.id; lia. Qed.

(** Two mebibytes of zero bytes are rejected. *)
Lemma oversized_image_rejected_witness :
  exists e w',
    @predictClassification probe_tf (probe_model [of_Z 1]) two_mebibytes empty_world
    = (inl e, w')
    /\ @postPredictHandler probe_tf probe_env
         (@mkRequest probe_tf two_mebibytes ∅ (probe_model [of_Z 1])) empty_world
       = (inl e, w')
    /\ instanceof_InputError e = true
    /\ name e = "InputError"
    /\ statusCode e = Some 400
    /\ w' = empty_world
    /\ predict_calls w' = predict_calls empty_world.
Proof.
  exact (@oversized_image_rejected probe_tf probe_env (probe_model [of_Z 1])
           two_mebibytes ∅ empty_world (zero_bytes_oversized 2097152 eq_refl)).
Defined.

(** C3 (what the code does). For an image longer than 1,048,576 bytes the
    error that leaves [predictClassification] is not the one thrown by the
    size check: the [catch] clause has replaced it. The message a caller of
    the handler gets, with status 400, is the generic one, which does not
    mention the limit; and a request through the server is refused with
    status 413 before the handler runs. *)
Theorem oversized_message_is_generic `{tf : TensorFlow}
    (env : Env) (model : GraphModel) (image : list Byte.byte)
    (framing : nat) (w : world) :
  1024 * 1024 < Z.of_nat (length image) ->
  predict_body model image w = (inl (new_InputError size_message None), w)
  /\ predictClassification model image w
     = (inl (new_InputError generic_message None), w)
  /\ includes "Maksimum 1MB" (err_message (new_InputError size_message None)) = true
  /\ includes "Maksimum 1MB" (err_message (new_InputError generic_message None)) = false
  /\ settle (fst (postPredictHandler env (mkRequest image ∅ model) w))
     = inr (mkResponse "fail" (Some "Terjadi kesalahan dalam melakukan prediksi")
                       None 400)
  /\ serve model env (mkHttp "POST" "/predict" image framing) w
     = (inr (mkResponse "fail"
               (Some "Payload content length greater than maximum allowed: 1000000")
               None 413), w).
Proof.
  intros H. repeat split.
  - apply predict_body_oversize, H.
  - apply predictClassification_oversize, H.
  - rewrite (postPredictHandler_oversize env model image ∅ w H). reflexivity.
  - unfold serve. rewrite find_route_post. cbn [method negb String.eqb andb].
    replace (content_length (mkHttp "POST" "/predict" image framing) >? maxBytes)
      with true; [reflexivity|].
    symmetry. apply Z.gtb_lt. unfold content_length, maxBytes. cbn [req_image req_framing].
    lia.
Qed.

(** Two mebibytes of zero bytes: the messages the callers get. *)
Lemma oversized_message_is_generic_witness :
  @predict_body probe_tf (probe_model [of_Z 1]) two_mebibytes empty_world
  = (inl (new_InputError size_message None), empty_world)
  /\ @predictClassification probe_tf (probe_model [of_Z 1]) two_mebibytes empty_world
     = (inl (new_InputError generic_message None), empty_world)
  /\ includes "Maksimum 1MB" (err_message (new_InputError size_message None)) = true
  /\ includes "Maksimum 1MB" (err_message (new_InputError generic_message None)) = false
  /\ settle (fst (@postPredictHandler probe_tf probe_env
                    (@mkRequest probe_tf two_mebibytes ∅ (probe_model [of_Z 1]))
                    empty_world))
     = inr (mkResponse "fail" (Some "Terjadi kesalahan dalam melakukan prediksi")
                       None 400)
  /\ @serve probe_tf (probe_model [of_Z 1]) probe_env
       (mkHttp "POST" "/predict" two_mebibytes 200) empty_world
     = (inr (mkResponse "fail"
               (Some "Payload content length greater than maximum allowed: 1000000")
               None 413), empty_world).
Proof.
  exact (@oversized_message_is_generic probe_tf probe_env (probe_model [of_Z 1])
           two_mebibytes 200 empty_world (zero_bytes_oversized 2097152 eq_refl)).
Defined.

(** ** The handlers *)

(** [crypto.randomUUID()] never gives the empty string. *)
Lemma randomUUID_nonempty (random : nat -> Z) : String.eqb (randomUUID random) "" = false.
Proof. reflexivity. Qed.

Section HandlerFacts.

Context `{tf : TensorFlow}.

(** The handler after [predictClassification]: its error goes through, its
    result is stored under a fresh id and answered with status 201. *)
Lemma postPredictHandler_run (env : Env) (request : Request) (w : world) :
  postPredictHandler env request w
  = match predictClassification (app_model request) (payload_image request) w with
    | (inl e, w1) => (inl e, w1)
    | (inr r, w1) =>
        (inr (mkResponse "success"
                (Some (if gt (confidenceScore r) (of_Z 0)
                       then "Model is predicted successfully"
                       else "Please use the correct picture"))
                (Some (PRecord (record_of env r))) 201),
         mkWorld (<[data_id (record_of env r) := record_of env r]> (collection w1))
                 (log w1 ++ [CallStoreSet (data_id (record_of env r))]))
    end.
Proof.
  unfold postPredictHandler, bind.
  destruct (predictClassification _ _ w) as [[e|r] w1]; reflexivity.
Qed.

Lemma getData_by_id (id : string) (w : world) :
  String.eqb id "" = false ->
  getData (Some id) w
  = (inr match collection w !! id with
         | Some d => One (modelData (mkDoc id d))
         | None => Null
         end,
     mkWorld (collection w) (log w ++ [CallStoreGet id])).
Proof.
  intros H. unfold getData, truthy_id. rewrite H.
  unfold bind, doc_get, called, ret. cbn.
  destruct (collection w !! id); reflexivity.
Qed.

Lemma getData_all (id : option string) (w : world) :
  truthy_id id = false ->
  getData id w
  = (inr (All (modelData <$> ((fun kv => mkDoc (fst kv) (snd kv))
                                <$> map_to_list (collection w)))),
     mkWorld (collection w) (log w ++ [CallStoreList])).
Proof. intros H. unfold getData. rewrite H. reflexivity. Qed.

Lemma getPredictHandler_by_id (env : Env) (request : Request) (id : string) (w : world) :
  params request !! "id" = Some id ->
  String.eqb id "" = false ->
  getPredictHandler env request w
  = (inr match collection w !! id with
         | Some d =>
             mkResponse "success" None (Some (PFetched (One (modelData (mkDoc id d))))) 200
         | None => mkResponse "fail" (Some "Prediction not found") None 404
         end,
     mkWorld (collection w) (log w ++ [CallStoreGet id])).
Proof.
  intros Hid Hne. unfold getPredictHandler, bind. rewrite Hid.
  rewrite (getData_by_id id w Hne). destruct (collection w !! id); reflexivity.
Qed.

Lemma getPredictHandler_all (env : Env) (request : Request) (w : world) :
  truthy_id (params request !! "id") = false ->
  getPredictHandler env request w
  = (inr (mkResponse "success" None
            (Some (PFetched
                     (All (modelData <$> ((fun kv => mkDoc (fst kv) (snd kv))
                                            <$> map_to_list (collection w))))))
            200),
     mkWorld (collection w) (log w ++ [CallStoreList])).
Proof.
  intros H. unfold getPredictHandler, bind. rewrite (getData_all _ w H). reflexivity.
Qed.

End HandlerFacts.

(** C4. Round trip: the record a successful submission has stored is
    returned, as long as it is stored, by a request for its id as a view
    whose [id], [history.result], [history.suggestion], [history.createdAt]
    and [history.id] are the fields of that record. *)
Theorem stored_record_round_trip `{tf : TensorFlow}
    (env : Env) (request : Request) (w w' : world) (response : Response) :
  postPredictHandler env request w = (inr response, w') ->
  exists d,
    data response = Some (PRecord d)
    /\ collection w' !! data_id d = Some d
    /\ forall (env2 : Env) (request2 : Request) (w2 : world),
         params request2 !! "id" = Some (data_id d) ->
         collection w2 !! data_id d = Some d ->
         exists v,
           getPredictHandler env2 request2 w2
           = (inr (mkResponse "success" None (Some (PFetched (One v))) 200),
              mkWorld (collection w2) (log w2 ++ [CallStoreGet (data_id d)]))
           /\ view_id v = data_id d
           /\ history_result (history v) = data_result d
           /\ history_suggestion (history v) = data_suggestion d
           /\ history_createdAt (history v) = data_createdAt d
           /\ history_id (history v) = data_id d.
Proof.
  intros H. rewrite postPredictHandler_run in H.
  destruct (predictClassification _ _ w) as [[e|r] w1]; [discriminate|].
  inversion H; subst; clear H. exists (record_of env r).
  split; [reflexivity|]. split; [apply lookup_insert_eq|].
  intros env2 request2 w2 Hid Hstored.
  exists (modelData (mkDoc (data_id (record_of env r)) (record_of env r))).
  split; [|repeat split].
  rewrite (getPredictHandler_by_id env2 request2 _ _ Hid (randomUUID_nonempty _)).
  rewrite Hstored. reflexivity.
Qed.

(** The round trip of the record stored for the small image. *)
Lemma stored_record_round_trip_witness :
  exists d,
    data (mkResponse "success" (Some "Model is predicted successfully")
            (Some (PRecord probe_record)) 201)
    = Some (PRecord d)
    /\ collection probe_stored !! data_id d = Some d
    /\ forall (env2 : Env) (request2 : @Request probe_tf) (w2 : world),
         params request2 !! "id" = Some (data_id d) ->
         collection w2 !! data_id d = Some d ->
         exists v,
           getPredictHandler env2 request2 w2
           = (inr (mkResponse "success" None (Some (PFetched (One v))) 200),
              mkWorld (collection w2) (log w2 ++ [CallStoreGet (data_id d)]))
           /\ view_id v = data_id d
           /\ history_result (history v) = data_result d
           /\ history_suggestion (history v) = data_suggestion d
           /\ history_createdAt (history v) = data_createdAt d
           /\ history_id (history v) = data_id d.
Proof.
  apply (@stored_record_round_trip probe_tf probe_env (probe_request [half_percent])
           empty_world probe_stored).
  vm_compute. reflexivity.
Defined.

(** C5. Atomicity: a request whose classification succeeds makes exactly
    one write, of the complete record, and the collection afterwards is the
    old one with that record under its id; a request whose classification
    raises makes no write at all and leaves the collection as it was. The
    handler fails exactly when [predictClassification] does. *)
Theorem prediction_stores_one_or_none `{tf : TensorFlow}
    (env : Env) (request : Request) (w : world) :
  match postPredictHandler env request w with
  | (inr response, w') =>
      exists r w1,
        predictClassification (app_model request) (payload_image request) w = (inr r, w1)
        /\ data response = Some (PRecord (record_of env r))
        /\ store_writes w' = S (store_writes w)
        /\ collection w'
           = <[data_id (record_of env r) := record_of env r]> (collection w)
  | (inl e, w') =>
      predictClassification (app_model request) (payload_image request) w = (inl e, w')
      /\ store_writes w' = store_writes w
      /\ collection w' = collection w
  end.
Proof.
  rewrite postPredictHandler_run.
  destruct (predictClassification_cases (app_model request) (payload_image request) w)
    as [(calls & Hf & Hc)|(d & rs & x & t & p & s & _ & _ & _ & _ & _ & _ & _ & Hs)].
  - rewrite Hf. split; [reflexivity|]. split; [|reflexivity].
    rewrite store_writes_app. destruct w as [c l]. cbn [collection log].
    destruct Hc as [->|[->| ->]]; cbn; lia.
  - rewrite Hs. eexists; eexists. split; [reflexivity|]. split; [reflexivity|].
    split; [|reflexivity]. cbn [log collection].
    rewrite !store_writes_app. destruct w as [c l]. cbn. lia.
Qed.

(** C6. For every request whose classification succeeds, the handler
    answers 201 with status [success] and has stored the record; the message
    is [Model is predicted successfully] exactly when [confidenceScore > 0],
    and [Please use the correct picture] otherwise. *)
Theorem response_message_policy `{tf : TensorFlow}
    (env : Env) (request : Request) (w w1 : world) (r : Result) :
  predictClassification (app_model request) (payload_image request) w = (inr r, w1) ->
  exists response w',
    postPredictHandler env request w = (inr response, w')
    /\ code response = 201
    /\ status response = "success"
    /\ data response = Some (PRecord (record_of env r))
    /\ collection w' !! data_id (record_of env r) = Some (record_of env r)
    /\ data_confidenceScore (record_of env r) = confidenceScore r
    /\ (message response = Some "Model is predicted successfully"
        <-> gt (confidenceScore r) (of_Z 0) = true)
    /\ (message response = Some "Please use the correct picture"
        <-> gt (confidenceScore r) (of_Z 0) = false).
Proof.
  intros H. rewrite postPredictHandler_run, H.
  eexists; eexists. split; [reflexivity|]. cbn [code status data message collection].
  repeat split; try (apply lookup_insert_eq);
    destruct (gt (confidenceScore r) (of_Z 0)); intros G; congruence.
Qed.

(** A model that answers 0: the record is stored, the message asks for a correct picture. *)
Lemma response_message_policy_witness :
  exists response w',
    @postPredictHandler probe_tf probe_env (probe_request [of_Z 0]) empty_world
    = (inr response, w')
    /\ code response = 201
    /\ status response = "success"
    /\ data response
       = Some (PRecord (record_of probe_env (classify (confidence_of [of_Z 0]))))
    /\ collection w' !! data_id (record_of probe_env (classify (confidence_of [of_Z 0])))
       = Some (record_of probe_env (classify (confidence_of [of_Z 0])))
    /\ data_confidenceScore (record_of probe_env (classify (confidence_of [of_Z 0])))
       = confidenceScore (classify (confidence_of [of_Z 0]))
    /\ (message response = Some "Model is predicted successfully"
        <-> gt (confidenceScore (classify (confidence_of [of_Z 0]))) (of_Z 0) = true)
    /\ (message response = Some "Please use the correct picture"
        <-> gt (confidenceScore (classify (confidence_of [of_Z 0]))) (of_Z 0) = false).
Proof.
  apply (@response_message_policy probe_tf probe_env (probe_request [of_Z 0]) empty_world
           (mkWorld ∅ [CallDecodeJpeg; CallPredict])).
  vm_compute. reflexivity.
Defined.

(** ** The history read path *)

(** C8 (as stated, refuted). The empty string is an id without a stored
    record, and a request for it is not answered 404: [if (id)] takes the
    empty string for an absent id, so the whole collection is returned with
    status 200. *)
Lemma empty_id_returns_collection :
  params (lookup_request "") !! "id" = Some ""
  /\ collection empty_world !! "" = None
  /\ @getPredictHandler probe_tf probe_env (lookup_request "") empty_world
     = (inr (mkResponse "success" None (Some (PFetched (All []))) 200),
        mkWorld ∅ [CallStoreList])
  /\ ~ (exists w',
          @getPredictHandler probe_tf probe_env (lookup_request "") empty_world
          = (inr (mkResponse "fail" (Some "Prediction not found") None 404), w')).
Proof.
  split; [reflexivity|]. split; [reflexivity|]. split; [vm_compute; reflexivity|].
  intros [w' Hw]. vm_compute in Hw. discriminate.
Qed.

(** C8 (amended). For every non-empty id that has no stored record, the
    handler returns (it does not throw) the response of status 404 with body
    [{status: fail, message: Prediction not found}]; the store was asked for
    that id once and nothing else has changed. *)
Theorem unknown_id_not_found `{tf : TensorFlow}
    (env : Env) (request : Request) (w : world) (id : string) :
  params request !! "id" = Some id ->
  id <> "" ->
  collection w !! id = None ->
  getPredictHandler env request w
  = (inr (mkResponse "fail" (Some "Prediction not found") None 404),
     mkWorld (collection w) (log w ++ [CallStoreGet id])).
Proof.
  intros Hid Hne Hnone.
  assert (String.eqb id "" = false) as He by (apply String.eqb_neq; exact Hne).
  rewrite (getPredictHandler_by_id env request id w Hid He), Hnone. reflexivity.
Qed.

(** An id that is not in the collection of one record. *)
Lemma unknown_id_not_found_witness :
  @getPredictHandler probe_tf probe_env (lookup_request "nonexistent-id") probe_stored
  = (inr (mkResponse "fail" (Some "Prediction not found") None 404),
     mkWorld (collection probe_stored)
             (log probe_stored ++ [CallStoreGet "nonexistent-id"])).
Proof.
  apply (@unknown_id_not_found probe_tf probe_env (lookup_request "nonexistent-id")
           probe_stored "nonexistent-id").
  - reflexivity.
  - discriminate.
  - vm_compute. reflexivity.
Defined.

(** ** Routing *)

(** A path without parameter segments binds nothing. *)
Lemma match_segments_literal (pattern : list string) :
  Forall (fun p => param_name p = None) pattern ->
  forall (actual : list string) (ps ps' : gmap string string),
    match_segments pattern actual ps = Some ps' -> ps' = ps.
Proof.
  induction 1 as [|p pattern Hp _ IH]; intros actual ps ps' H.
  - destruct actual; cbn in H; congruence.
  - destruct actual as [|a actual]; cbn in H; [discriminate|].
    rewrite Hp in H. destruct (String.eqb p a); [|discriminate].
    eapply IH, H.
Qed.

Section ServerFacts.

Context `{tf : TensorFlow}.

(** The two routes of the table, and what they bind: nothing. *)
Lemma find_route_routes (req : HttpRequest) (r : Route) (ps : gmap string string) :
  find_route routes req = Some (r, ps) ->
  ps = ∅
  /\ (r = mkRoute "/predict" "POST" postPredictHandler
      \/ r = mkRoute "/predict/histories" "GET" getPredictHandler).
Proof.
  unfold routes. cbn [find_route method path].
  destruct (String.eqb "POST" (req_method req)).
  - destruct (match_segments (segments "/predict") _ ∅) as [ps1|] eqn:H1.
    + intros [= <- <-]. split; [|left; reflexivity].
      eapply match_segments_literal, H1. repeat constructor.
    + destruct (String.eqb "GET" (req_method req)); [|discriminate].
      destruct (match_segments (segments "/predict/histories") _ ∅) as [ps2|] eqn:H2;
        [|discriminate].
      intros [= <- <-]. split; [|right; reflexivity].
      eapply match_segments_literal, H2. repeat constructor.
  - destruct (String.eqb "GET" (req_method req)); [|discriminate].
    destruct (match_segments (segments "/predict/histories") _ ∅) as [ps2|] eqn:H2;
      [|discriminate].
    intros [= <- <-]. split; [|right; reflexivity].
    eapply match_segments_literal, H2. repeat constructor.
Qed.

(** The calls a submission adds to the log: none of them reads a document. *)
Lemma postPredictHandler_log (env : Env) (request : Request) (w : world) :
  exists calls,
    log (snd (postPredictHandler env request w)) = (log w ++ calls)%list
    /\ forall id, ~ In (CallStoreGet id) calls.
Proof.
  rewrite postPredictHandler_run.
  destruct (predictClassification_cases (app_model request) (payload_image request) w)
    as [(calls & Hf & Hc)|(d & rs & x & t & p & s & _ & _ & _ & _ & _ & _ & _ & Hs)].
  - rewrite Hf. exists calls. split; [reflexivity|].
    intros id Hin. destruct Hc as [->|[->| ->]]; cbn in Hin;
      repeat (destruct Hin as [Hin|Hin]; [discriminate|]); exact Hin.
  - rewrite Hs. cbn [snd log].
    exists [CallDecodeJpeg; CallPredict;
            CallStoreSet (data_id (record_of env (classify (confidence_of s))))].
    split; [rewrite <- app_assoc; reflexivity|].
    intros id Hin. cbn in Hin.
    repeat (destruct Hin as [Hin|Hin]; [discriminate|]); exact Hin.
Qed.

End ServerFacts.

(** C9. No route of the table binds a path parameter, so [request.params.id]
    is undefined whatever the request; a request served by the history route
    [/predict/histories] is answered 200 with the whole collection after one
    listing of the store; and no request through the server ever reads a
    single document by id. *)
Theorem history_route_returns_collection `{tf : TensorFlow}
    (model : GraphModel) (env : Env) (req : HttpRequest) (w : world) :
  (forall r ps, find_route routes req = Some (r, ps) -> ps !! "id" = None)
  /\ (forall r ps,
        find_route routes req = Some (r, ps) ->
        path r = "/predict/histories" ->
        serve model env req w
        = (inr (mkResponse "success" None
                  (Some (PFetched
                           (All (modelData <$> ((fun kv => mkDoc (fst kv) (snd kv))
                                                  <$> map_to_list (collection w))))))
                  200),
           mkWorld (collection w) (log w ++ [CallStoreList])))
  /\ (exists calls,
        log (snd (serve model env req w)) = (log w ++ calls)%list
        /\ forall id, ~ In (CallStoreGet id) calls).
Proof.
  split; [|split].
  - intros r ps H. apply find_route_routes in H as [-> _]. apply lookup_empty.
  - intros r ps H Hpath. unfold serve. rewrite H.
    apply find_route_routes in H as [-> [->| ->]]; [discriminate Hpath|].
    cbn [handler method String.eqb Ascii.eqb Bool.eqb negb andb].
    rewrite getPredictHandler_all; reflexivity.
  - unfold serve. destruct (find_route routes req) as [[r ps]|] eqn:H.
    + apply find_route_routes in H as [-> [->| ->]]; cbn [handler method].
      * destruct (negb ("POST" =? "GET") && (content_length req >? maxBytes)).
        { exists []. cbn [snd]. split; [rewrite app_nil_r; reflexivity|]. intros id []. }
        destruct (postPredictHandler_log env (mkRequest (req_image req) ∅ model) w)
          as (calls & Hl & Hn).
        exists calls. split; [|exact Hn]. rewrite <- Hl.
        destruct (postPredictHandler _ _ w) as [outcome w']; reflexivity.
      * cbn [String.eqb Ascii.eqb Bool.eqb negb andb].
        rewrite getPredictHandler_all by reflexivity. cbn [snd log].
        exists [CallStoreList]. split; [reflexivity|].
        intros id [Hin|[]]. discriminate.
    + exists []. cbn [snd]. split; [rewrite app_nil_r; reflexivity|]. intros id [].
Qed.

(** [GET /predict/histories] on the collection of one record. *)
Lemma history_route_returns_collection_witness :
  @serve probe_tf (probe_model []) probe_env (mkHttp "GET" "/predict/histories" [] 0)
    probe_stored
  = (inr (mkResponse "success" None
            (Some (PFetched
                     (All (modelData <$> ((fun kv => mkDoc (fst kv) (snd kv))
                                            <$> map_to_list (collection probe_stored))))))
            200),
     mkWorld (collection probe_stored) (log probe_stored ++ [CallStoreList])).
Proof.
  apply (proj1 (proj2 (@history_route_returns_collection probe_tf (probe_model [])
                         probe_env (mkHttp "GET" "/predict/histories" [] 0) probe_stored))
           (mkRoute "/predict/histories" "GET" getPredictHandler) ∅).
  - reflexivity.
  - reflexivity.
Defined.

(* ===================================================================== *)
(** * Further properties of the code *)
(* ===================================================================== *)

(** ** The inference service, case by case *)

Section InferenceFacts.

Context `{tf : TensorFlow}.

(** What [predictClassification] does, by the size of the image and the
    outcome of each external call. *)
Lemma predictClassification_run (model : GraphModel) (image : list Byte.byte) (w : world) :
  predictClassification model image w
  = if Z.of_nat (length image) >? 1024 * 1024 then
      (inl (new_InputError generic_message None), w)
    else
      match preprocess image with
      | inl _ =>
          (inl (new_InputError generic_message None),
           mkWorld (collection w) (log w ++ [CallDecodeJpeg]))
      | inr tensor =>
          match predict model tensor with
          | inl _ =>
              (inl (new_InputError generic_message None),
               mkWorld (collection w) (log w ++ [CallDecodeJpeg; CallPredict]))
          | inr prediction =>
              match tensor_data prediction with
              | inl _ =>
                  (inl (new_InputError generic_message None),
                   mkWorld (collection w) (log w ++ [CallDecodeJpeg; CallPredict]))
              | inr score =>
                  (inr (classify (confidence_of score)),
                   mkWorld (collection w) (log w ++ [CallDecodeJpeg; CallPredict]))
              end
          end
      end.
Proof.
  unfold predictClassification, try_catch, predict_body, preprocess.
  destruct (Z.of_nat (length image) >? 1024 * 1024); [destruct w; reflexivity|].
  run.
  destruct (decodeJpeg image) as [e|decoded]; [reflexivity|].
  destruct (resizeNearestNeighbor decoded (224, 224)) as [e|resized]; [reflexivity|].
  destruct (expandDims resized) as [e|expanded]; [reflexivity|].
  destruct (toFloat expanded) as [e|tensor]; [reflexivity|].
  rewrite <- app_assoc. cbn [app].
  destruct (predict model tensor) as [e|prediction]; [reflexivity|].
  destruct (tensor_data prediction) as [e|score]; reflexivity.
Qed.

End InferenceFacts.

Lemma key_le_lt_trans (a b c : Z * Z * Z) : key_le a b -> key_lt b c -> key_lt a c.
Proof.
  key_triples. unfold key_le, key_lt.
  intros [H1|H1] H2; [lia|]. inversion H1; subst. exact H2.
Qed.

Lemma le_lt_trans (x y z : number) : le x y = true -> lt y z = true -> lt x z = true.
Proof.
  rewrite le_spec, !lt_spec.
  intros (a & b & Hx & Hy & Hab) (b' & c & Hy' & Hz & Hbc). key_facts.
  exists a, c. repeat split; try assumption.
  eapply key_le_lt_trans; eassumption.
Qed.

Lemma le_not_nan (x y : number) : le x y = true -> is_nan x = false /\ is_nan y = false.
Proof.
  rewrite le_spec. intros (a & b & Hx & Hy & _).
  split; apply key_is_nan; eauto.
Qed.

Section InferenceProperties.

Context `{tf : TensorFlow}.


(** X1. Whatever makes [predictClassification] fail (the size check, the
    decoding, the resizing, the forward pass, reading the output), the
    error it throws is the same [InputError]: the generic message, status
    400; the collection is untouched and nothing was written. *)
Theorem failures_collapse_to_one_error
    (model : GraphModel) (image : list Byte.byte) (w w' : world) (e : Error) :
  predictClassification model image w = (inl e, w') ->
  e = new_InputError generic_message None
  /\ instanceof_InputError e = true
  /\ statusCode e = Some 400
  /\ err_message e = "Terjadi kesalahan dalam melakukan prediksi"
  /\ collection w' = collection w
  /\ store_writes w' = store_writes w.
Proof.
  intros H.
  destruct (predictClassification_cases model image w) as
    [(calls & Hf & Hc)|(d & rs & x & t & p & s & _ & _ & _ & _ & _ & _ & _ & Hs)].
  - rewrite Hf in H. inversion H; subst. repeat split.
    rewrite store_writes_app. destruct w as [c l]. cbn [collection log].
    destruct Hc as [->|[->| ->]]; cbn; lia.
  - rewrite Hs in H. discriminate.
Qed.

(** X2. The calls [predictClassification] makes: [decodeJpeg] is called
    once when the image has at most 1,048,576 bytes and not at all when it
    is longer; the model's forward pass is called once when, besides, all
    of decoding, resizing, batching and casting succeeded, and not at all
    otherwise. *)
Theorem calls_of_predictClassification
    (model : GraphModel) (image : list Byte.byte) (w : world) :
  decode_calls (snd (predictClassification model image w))
  = (if (Z.of_nat (length image) <=? 1024 * 1024)%Z
     then S (decode_calls w) else decode_calls w)
  /\ predict_calls (snd (predictClassification model image w))
     = (if (Z.of_nat (length image) <=? 1024 * 1024)%Z
        then match preprocess image with
             | inr _ => S (predict_calls w)
             | inl _ => predict_calls w
             end
        else predict_calls w).
Proof.
  rewrite predictClassification_run, Z.gtb_ltb, Z.ltb_antisym.
  destruct (Z.of_nat (length image) <=? 1024 * 1024)%Z; cbn [negb]; [|split; reflexivity].
  unfold decode_calls, predict_calls.
  destruct (preprocess image) as [e|tensor];
    [|destruct (predict model tensor) as [e|prediction];
      [|destruct (tensor_data prediction) as [e|score]]];
    cbn [snd log]; rewrite !List.filter_app, !List.length_app; cbn; split; lia.
Qed.


End InferenceProperties.

(** X4. The policy is monotone: if a score is classified Cancer, so is
    every score that is at least as large. *)
Theorem classify_monotone (x y : number) :
  le x y = true ->
  label (classify x) = "Cancer" ->
  label (classify y) = "Cancer".
Proof.
  intros Hle Hx. unfold classify in *.
  destruct (lt y (of_Z 1)) eqn:Hy; [|reflexivity].
  rewrite (le_lt_trans x y (of_Z 1) Hle Hy) in Hx. discriminate.
Qed.

(** X5. A score that is not NaN and not above 0 is below 1: whenever the
    response asks for a correct picture, the stored record is labelled
    Non-cancer, unless its score is NaN. *)
Theorem correct_picture_message_means_non_cancer `{tf : TensorFlow}
    (env : Env) (request : Request) (w w' : world) (response : Response) :
  postPredictHandler env request w = (inr response, w') ->
  message response = Some "Please use the correct picture" ->
  exists d,
    data response = Some (PRecord d)
    /\ collection w' !! data_id d = Some d
    /\ (data_confidenceScore d = NaN
        \/ (data_result d = "Non-cancer"
            /\ data_suggestion d = "Penyakit kanker tidak terdeteksi.")).
Proof.
  intros H Hm. rewrite postPredictHandler_run in H.
  destruct (predictClassification_cases (app_model request) (payload_image request) w)
    as [(calls & Hf & Hc)|(d & rs & x & t & p & s & _ & _ & _ & _ & _ & _ & _ & Hs)].
  - rewrite Hf in H. discriminate.
  - rewrite Hs in H. inversion H; subst; clear H. cbn [message data collection] in *.
    eexists. split; [reflexivity|]. split; [apply lookup_insert_eq|].
    cbn [data_confidenceScore data_result data_suggestion record_of].
    set (cs := confidence_of s) in *.
    assert (confidenceScore (classify cs) = cs) as Hcs
      by (unfold classify; destruct (lt cs _); reflexivity).
    rewrite Hcs in *. change (S754_zero false) with (of_Z 0) in Hm.
    destruct (gt cs (of_Z 0)) eqn:Hgt; [discriminate|].
    destruct (is_nan cs) eqn:Hnan.
    + left. destruct cs; try discriminate. reflexivity.
    + right. pose proof (not_gt_le cs (of_Z 0) Hnan eq_refl Hgt) as Hle.
      assert (lt cs (of_Z 1) = true) as Hlt
        by (eapply le_lt_trans; [exact Hle|reflexivity]).
      unfold classify. rewrite Hlt. split; reflexivity.
Qed.

(** An image that cannot be decoded: the generic error after one call. *)
Lemma failures_collapse_to_one_error_witness :
  new_InputError generic_message None = new_InputError generic_message None
  /\ instanceof_InputError (new_InputError generic_message None) = true
  /\ statusCode (new_InputError generic_message None) = Some 400
  /\ err_message (new_InputError generic_message None)
     = "Terjadi kesalahan dalam melakukan prediksi"
  /\ collection (mkWorld ∅ [CallDecodeJpeg]) = collection empty_world
  /\ store_writes (mkWorld ∅ [CallDecodeJpeg]) = store_writes empty_world.
Proof.
  apply (@failures_collapse_to_one_error broken_tf broken_model small_image empty_world).
  vm_compute. reflexivity.
Defined.


(** 1 is classified Cancer, and so is 100. *)
Lemma classify_monotone_witness : label (classify (of_Z 100)) = "Cancer".
Proof.
  apply (classify_monotone (of_Z 1) (of_Z 100)); vm_compute; reflexivity.
Defined.

(** A model that answers 0: the picture is refused and labelled Non-cancer. *)
Lemma correct_picture_message_means_non_cancer_witness :
  exists d,
    data (mkResponse "success" (Some "Please use the correct picture")
            (Some (PRecord (record_of probe_env (classify (confidence_of [of_Z 0])))))
            201)
    = Some (PRecord d)
    /\ collection
         (mkWorld {[ randomUUID (random_byte probe_env)
                     := record_of probe_env (classify (confidence_of [of_Z 0])) ]}
                  [CallDecodeJpeg; CallPredict;
                   CallStoreSet (randomUUID (random_byte probe_env))])
       !! data_id d = Some d
    /\ (data_confidenceScore d = NaN
        \/ (data_result d = "Non-cancer"
            /\ data_suggestion d = "Penyakit kanker tidak terdeteksi.")).
Proof.
  apply (@correct_picture_message_means_non_cancer probe_tf probe_env
           (probe_request [of_Z 0]) empty_world).
  - vm_compute. reflexivity.
  - reflexivity.
Defined.

(** ** The history handler *)

Section HistoryProperties.

Context `{tf : TensorFlow}.

Lemma truthy_id_some (o : option string) :
  truthy_id o = true -> exists id, o = Some id /\ String.eqb id "" = false.
Proof.
  destruct o as [id|]; cbn; [|discriminate].
  intros H. exists id. split; [reflexivity|]. destruct (String.eqb id ""); [discriminate|reflexivity].
Qed.

Lemma getPredictHandler_collection (env : Env) (request : Request) (w : world) :
  collection (snd (getPredictHandler env request w)) = collection w.
Proof.
  destruct (truthy_id (params request !! "id")) eqn:Ht.
  - apply truthy_id_some in Ht as (id & Hid & Hne).
    rewrite (getPredictHandler_by_id env request id w Hid Hne). reflexivity.
  - rewrite (getPredictHandler_all env request w Ht). reflexivity.
Qed.

(** X6. The history handler only reads: whatever the request, it returns a
    response (it never throws), the collection is as it was, and the store
    was asked exactly once, for one document or for the list. The status is
    200 or 404, and it is 404 exactly when a non-empty id was given that
    has no document. *)
Theorem history_handler_only_reads (env : Env) (request : Request) (w : world) :
  exists response c,
    getPredictHandler env request w
    = (inr response, mkWorld (collection w) (log w ++ [c]))
    /\ (c = CallStoreList \/ exists id, c = CallStoreGet id)
    /\ (code response = 200 \/ code response = 404)
    /\ (code response = 404
        <-> exists id, params request !! "id" = Some id /\ id <> ""
                       /\ collection w !! id = None)
    /\ (code response = 404 <-> status response = "fail").
Proof.
  destruct (truthy_id (params request !! "id")) eqn:Ht.
  - apply truthy_id_some in Ht as (id & Hid & Hne).
    rewrite (getPredictHandler_by_id env request id w Hid Hne).
    eexists; eexists. split; [reflexivity|]. split; [right; eauto|].
    destruct (collection w !! id) as [d|] eqn:Hd; cbn [code status].
    + split; [left; reflexivity|]. split; split; try discriminate.
      intros (id' & Hid' & _ & Hnone). congruence.
    + split; [right; reflexivity|]. split; split; try reflexivity.
      intros _. exists id. repeat split; try assumption.
      apply String.eqb_neq. exact Hne.
  - rewrite (getPredictHandler_all env request w Ht).
    eexists; eexists. split; [reflexivity|]. split; [left; reflexivity|].
    cbn [code status]. split; [left; reflexivity|]. split; split; try discriminate.
    intros (id & Hid & Hne & _). rewrite Hid in Ht. cbn in Ht.
    apply String.eqb_neq in Hne. rewrite Hne in Ht. discriminate.
Qed.

(** X7. Without an id (or with the empty one) the handler answers 200 with
    one view per stored document: as many views as documents, a view is in
    the array exactly when it is [modelData] of a stored document, and no
    two views have the same id. *)
Theorem listing_holds_every_record (env : Env) (request : Request) (w : world) :
  truthy_id (params request !! "id") = false ->
  exists l,
    getPredictHandler env request w
    = (inr (mkResponse "success" None (Some (PFetched (All l))) 200),
       mkWorld (collection w) (log w ++ [CallStoreList]))
    /\ length l = size (collection w)
    /\ (forall v, v ∈ l <-> exists id d, collection w !! id = Some d
                                        /\ v = modelData (mkDoc id d))
    /\ NoDup (view_id <$> l).
Proof.
  intros Ht. rewrite (getPredictHandler_all env request w Ht).
  eexists. split; [reflexivity|]. split; [|split].
  - rewrite !length_fmap. apply length_map_to_list.
  - intros v. rewrite list_elem_of_fmap. split.
    + intros (doc & -> & Hdoc). apply list_elem_of_fmap in Hdoc as ([id d] & -> & Hin).
      apply elem_of_map_to_list in Hin. exists id, d. split; [exact Hin|reflexivity].
    + intros (id & d & Hd & ->). exists (mkDoc id d). split; [reflexivity|].
      apply list_elem_of_fmap. exists (id, d). split; [reflexivity|].
      apply elem_of_map_to_list, Hd.
  - rewrite <- !list_fmap_compose.
    erewrite list_fmap_ext; [apply (NoDup_fst_map_to_list (collection w))|].
    intros i [id d] _. reflexivity.
Qed.

End HistoryProperties.

(** The collection of one record is listed as one view. *)
Lemma listing_holds_every_record_witness :
  exists l,
    @getPredictHandler probe_tf probe_env (probe_request []) probe_stored
    = (inr (mkResponse "success" None (Some (PFetched (All l))) 200),
       mkWorld (collection probe_stored) (log probe_stored ++ [CallStoreList]))
    /\ length l = size (collection probe_stored)
    /\ (forall v, v ∈ l <-> exists id d, collection probe_stored !! id = Some d
                                        /\ v = modelData (mkDoc id d))
    /\ NoDup (view_id <$> l).
Proof.
  apply (@listing_holds_every_record probe_tf probe_env (probe_request []) probe_stored).
  reflexivity.
Defined.

(** ** Submissions and the collection *)

Section SubmissionProperties.

Context `{tf : TensorFlow}.

(** A successful submission, spelled out. *)
Lemma postPredictHandler_success (env : Env) (request : Request) (w w' : world)
    (response : Response) :
  postPredictHandler env request w = (inr response, w') ->
  exists r,
    response = mkResponse "success"
                 (Some (if gt (confidenceScore r) (of_Z 0)
                        then "Model is predicted successfully"
                        else "Please use the correct picture"))
                 (Some (PRecord (record_of env r))) 201
    /\ (exists score, r = classify (confidence_of score))
    /\ collection w' = <[randomUUID (random_byte env) := record_of env r]> (collection w)
    /\ log w' = (log w ++ [CallDecodeJpeg; CallPredict;
                            CallStoreSet (randomUUID (random_byte env))])%list.
Proof.
  intros H. rewrite postPredictHandler_run in H.
  destruct (predictClassification_cases (app_model request) (payload_image request) w)
    as [(calls & Hf & Hc)|(d & rs & x & t & p & s & _ & _ & _ & _ & _ & _ & _ & Hs)].
  - rewrite Hf in H. discriminate.
  - rewrite Hs in H. inversion H; subst; clear H.
    exists (classify (confidence_of s)). split; [reflexivity|].
    split; [eauto|]. split; [reflexivity|].
    cbn [log]. rewrite <- app_assoc. reflexivity.
Qed.

Lemma prediction_fails_keeps (env : Env) (request : Request) (w : world) :
  match postPredictHandler env request w with
  | (inl _, w') => collection w' = collection w
  | (inr _, _) => True
  end.
Proof.
  rewrite postPredictHandler_run.
  destruct (predictClassification_cases (app_model request) (payload_image request) w)
    as [(calls & Hf & Hc)|(d & rs & x & t & p & s & _ & _ & _ & _ & _ & _ & _ & Hs)].
  - rewrite Hf. reflexivity.
  - rewrite Hs. exact I.
Qed.

(** X8. A successful submission touches one document only: every other id
    reads as before, and the collection has one document more when the new
    id was free, and as many as before when it was taken. *)
Theorem submission_keeps_other_records
    (env : Env) (request : Request) (w w' : world) (response : Response) :
  postPredictHandler env request w = (inr response, w') ->
  (forall id, id <> randomUUID (random_byte env) ->
              collection w' !! id = collection w !! id)
  /\ size (collection w')
     = match collection w !! randomUUID (random_byte env) with
       | Some _ => size (collection w)
       | None => S (size (collection w))
       end.
Proof.
  intros H. apply postPredictHandler_success in H as (r & _ & _ & Hc & _).
  rewrite Hc. split.
  - intros id Hne. apply lookup_insert_ne. congruence.
  - rewrite map_size_insert. destruct (collection w !! _); reflexivity.
Qed.

(** X9. Submissions are not idempotent: two successful submissions, of the
    same image or not, whose ids differ leave two records, each readable
    under its own id, after two writes. *)
Theorem two_submissions_two_records
    (env1 env2 : Env) (request1 request2 : Request) (w w1 w2 : world)
    (response1 response2 : Response) :
  postPredictHandler env1 request1 w = (inr response1, w1) ->
  postPredictHandler env2 request2 w1 = (inr response2, w2) ->
  randomUUID (random_byte env1) <> randomUUID (random_byte env2) ->
  exists d1 d2,
    data response1 = Some (PRecord d1)
    /\ data response2 = Some (PRecord d2)
    /\ data_id d1 <> data_id d2
    /\ collection w2 !! data_id d1 = Some d1
    /\ collection w2 !! data_id d2 = Some d2
    /\ store_writes w2 = S (S (store_writes w)).
Proof.
  intros H1 H2 Hne.
  apply postPredictHandler_success in H1 as (r1 & -> & _ & Hc1 & Hl1).
  apply postPredictHandler_success in H2 as (r2 & -> & _ & Hc2 & Hl2).
  exists (record_of env1 r1), (record_of env2 r2).
  split; [reflexivity|]. split; [reflexivity|]. split; [exact Hne|].
  rewrite Hc2, Hc1. cbn [data_id record_of]. split; [|split].
  - rewrite lookup_insert_ne by congruence. apply lookup_insert_eq.
  - apply lookup_insert_eq.
  - unfold store_writes. rewrite Hl2, Hl1, !List.filter_app, !List.length_app. cbn. lia.
Qed.

Lemma consistent_record_of (env : Env) (score100 : number) :
  consistent (record_of env (classify score100)) = true.
Proof.
  unfold consistent, record_of, classify.
  destruct (lt score100 (of_Z 1)) eqn:H;
    cbn [data_confidenceScore data_result data_suggestion confidenceScore label
         suggestion];
    rewrite H; reflexivity.
Qed.

(** X10. The server keeps the collection well formed: if every document is
    stored under its own [id] with the label and suggestion that the policy
    gives to its confidence score, the same holds after any request. *)
Theorem serve_keeps_collection_well_formed
    (model : GraphModel) (env : Env) (req : HttpRequest) (w : world) :
  well_formed (collection w) ->
  well_formed (collection (snd (serve model env req w))).
Proof.
  intros Hwf. unfold serve.
  destruct (find_route routes req) as [[r ps]|] eqn:Hr; [|exact Hwf].
  apply find_route_routes in Hr as [-> [->| ->]]; cbn [handler method].
  - destruct (negb ("POST" =? "GET") && (content_length req >? maxBytes)); [exact Hwf|].
    destruct (postPredictHandler env (mkRequest (req_image req) ∅ model) w)
      as [[e|response] w'] eqn:Hp; cbn [snd].
    + pose proof (prediction_fails_keeps env (mkRequest (req_image req) ∅ model) w) as Hk.
      rewrite Hp in Hk. rewrite Hk. exact Hwf.
    + apply postPredictHandler_success in Hp as (r & _ & (score & ->) & Hc & _).
      rewrite Hc. apply map_Forall_insert_2; [|exact Hwf].
      split; [reflexivity|apply consistent_record_of].
  - cbn [String.eqb Ascii.eqb Bool.eqb negb andb].
    destruct (getPredictHandler env (mkRequest (req_image req) ∅ model) w)
      as [outcome w'] eqn:Hg. cbn [snd].
    pose proof (getPredictHandler_collection env (mkRequest (req_image req) ∅ model) w) as Hk.
    rewrite Hg in Hk. cbn [snd] in Hk. rewrite Hk. exact Hwf.
Qed.

End SubmissionProperties.

(** The first record of an empty collection. *)
Lemma submission_keeps_other_records_witness :
  (forall id, id <> randomUUID (random_byte probe_env) ->
              collection probe_stored !! id = collection empty_world !! id)
  /\ size (collection probe_stored)
     = match collection empty_world !! randomUUID (random_byte probe_env) with
       | Some _ => size (collection empty_world)
       | None => S (size (collection empty_world))
       end.
Proof.
  apply (@submission_keeps_other_records probe_tf probe_env
           (probe_request [half_percent]) empty_world probe_stored
           (mkResponse "success" (Some "Model is predicted successfully")
              (Some (PRecord probe_record)) 201)).
  vm_compute. reflexivity.
Defined.

(** The same image submitted twice. *)
Lemma two_submissions_two_records_witness :
  exists d1 d2,
    data (mkResponse "success" (Some "Model is predicted successfully")
            (Some (PRecord probe_record)) 201) = Some (PRecord d1)
    /\ data (mkResponse "success" (Some "Model is predicted successfully")
               (Some (PRecord probe_record2)) 201) = Some (PRecord d2)
    /\ data_id d1 <> data_id d2
    /\ collection probe_stored2 !! data_id d1 = Some d1
    /\ collection probe_stored2 !! data_id d2 = Some d2
    /\ store_writes probe_stored2 = S (S (store_writes empty_world)).
Proof.
  apply (@two_submissions_two_records probe_tf probe_env probe_env2
           (probe_request [half_percent]) (probe_request [half_percent])
           empty_world probe_stored probe_stored2).
  - vm_compute. reflexivity.
  - vm_compute. reflexivity.
  - vm_compute. discriminate.
Defined.

(** A second submission to the collection of one record. *)
Lemma serve_keeps_collection_well_formed_witness :
  well_formed
    (collection
       (snd (@serve probe_tf (probe_model [half_percent]) probe_env2
               (mkHttp "POST" "/predict" small_image 200) probe_stored))).
Proof.
  apply (@serve_keeps_collection_well_formed probe_tf).
  apply map_Forall_singleton. split; vm_compute; reflexivity.
Defined.

(** ** Responses *)

(** X11. Every outcome of a handler is answered: a response goes out as it
    is; whatever was thrown becomes a response of status [fail] without
    data; an [InputError] is answered with its own message and status code;
    any other error that hapi did not produce is answered 500 with its
    message, the status code of a [ClientError] included. *)
Theorem every_outcome_is_answered :
  (forall response, settle (inr response) = inr response)
  /\ (forall e, exists response,
         settle (inl e) = inr response
         /\ status response = "fail"
         /\ data response = None
         /\ is_Some (message response))
  /\ (forall msg code,
         settle (inl (new_InputError msg code))
         = inr (mkResponse "fail" (Some msg) None (default 400 code)))
  /\ (forall e,
         isBoom e = false ->
         instanceof_InputError e = false ->
         settle (inl e) = inr (mkResponse "fail" (Some (err_message e)) None 500)).
Proof.
  split; [reflexivity|]. split; [|split].
  - intros [cls nm msg sc [o|]]; unfold settle, boomify, onPreResponse, isBoom;
      cbn [output_statusCode class name err_message statusCode andb];
      destruct (bool_decide _); cbn [andb];
      try destruct (instanceof_InputError _);
      eexists; (split; [reflexivity|]); cbn; eauto.
  - intros msg code. reflexivity.
  - intros [cls nm msg sc [o|]] Hb Hi; [discriminate|].
    unfold settle, boomify, onPreResponse, isBoom in *.
    cbn [output_statusCode class name err_message statusCode andb] in *.
    unfold instanceof_InputError in *. cbn [class] in *.
    destruct cls; try discriminate; reflexivity.
Qed.

(** A [ClientError] of status 404 thrown by a handler is answered 500. *)
Lemma every_outcome_is_answered_witness :
  settle (inl (new_ClientError "Prediction not found" (Some 404)))
  = inr (mkResponse "fail" (Some "Prediction not found") None 500).
Proof.
  apply (proj2 (proj2 (proj2 every_outcome_is_answered))
           (new_ClientError "Prediction not found" (Some 404))); reflexivity.
Defined.

Section ServerProperties.

Context `{tf : TensorFlow}.



End ServerProperties.

(** ** The route table *)





Section RouteProperties.

Context `{tf : TensorFlow}.



End RouteProperties.


(** ** The Firestore service *)

(** X14. Writing then reading: after [storeData(id, data)] with a non-empty
    id, [getData(id)] returns the view of [data] under the id of the
    document (the key it was stored under, whatever its [id] field says),
    whatever was stored there before; other documents are untouched; and of
    two writes under one id the second wins. *)
Theorem store_then_get (id : string) (d : Data) (w : world) :
  id <> "" ->
  (exists w',
      (_ <- storeData id d ;; getData (Some id)) w
      = (inr (One (mkView id (mkHistory (data_result d) (data_createdAt d)
                                         (data_suggestion d) id))),
         w')
      /\ collection w' = <[id := d]> (collection w)
      /\ (forall id', id' <> id -> collection w' !! id' = collection w !! id')
      /\ log w' = (log w ++ [CallStoreSet id; CallStoreGet id])%list)
  /\ (forall d0,
         collection (snd ((_ <- storeData id d0 ;; storeData id d) w))
         = collection (snd (storeData id d w))).
Proof.
  intros Hne. apply String.eqb_neq in Hne. split.
  - unfold bind at 1.
    assert (storeData id d w
            = (inr tt, mkWorld (<[id := d]> (collection w)) (log w ++ [CallStoreSet id])))
      as Hs by reflexivity.
    rewrite Hs, (getData_by_id id _ Hne). cbn [collection log].
    rewrite lookup_insert_eq. eexists. split; [reflexivity|].
    cbn [collection log]. split; [reflexivity|]. split.
    + intros id' Hid'. apply lookup_insert_ne. congruence.
    + rewrite <- app_assoc. reflexivity.
  - intros d0. cbn. apply insert_insert_eq.
Qed.

(** A record stored under a key that is not its [id] field. *)
Lemma store_then_get_witness :
  (exists w',
      (_ <- storeData "another-key" probe_record ;; getData (Some "another-key"))
        probe_stored
      = (inr (One (mkView "another-key"
                     (mkHistory (data_result probe_record) (data_createdAt probe_record)
                                (data_suggestion probe_record) "another-key"))),
         w')
      /\ collection w' = <["another-key" := probe_record]> (collection probe_stored)
      /\ (forall id', id' <> "another-key" ->
                      collection w' !! id' = collection probe_stored !! id')
      /\ log w' = (log probe_stored
                   ++ [CallStoreSet "another-key"; CallStoreGet "another-key"])%list)
  /\ (forall d0,
         collection (snd ((_ <- storeData "another-key" d0 ;;
                           storeData "another-key" probe_record) probe_stored))
         = collection (snd (storeData "another-key" probe_record probe_stored))).
Proof.
  apply (store_then_get "another-key" probe_record probe_stored). discriminate.
Defined.

(** An image of exactly 1,048,576 bytes is decoded and given to the model. *)
Lemma calls_of_predictClassification_witness :
  decode_calls (snd (@predictClassification probe_tf (probe_model [of_Z 1])
                       one_mebibyte empty_world))
  = S (decode_calls empty_world).
Proof.
  rewrite (proj1 (@calls_of_predictClassification probe_tf (probe_model [of_Z 1])
                    one_mebibyte empty_world)).
  rewrite repeat_length, Z2Nat.id by lia. reflexivity.
Defined.
